(** * lnk: the link store and the forwarding service

    A shallow embedding of the Go server of the repository
    ([cmd/server/main.go] and the older root-level server, which differ only
    in [handleForward]) together with the part of SQLite's semantics that the
    four SQL statements of the program rely on, and of the command-line
    client that talks to the server's API.

    - The table [links] is a list of rows in rowid order.
    - A Go [string] is a byte sequence: [String.string].
    - A Go [error] value is one of the three shapes the program can meet.
    - Every repository method receives the engine's verdict for the one
      statement it runs ([fault]): [None] when the statement executes,
      [Some msg] when the call to [database/sql] returns a failure.  A
      failed statement leaves the table as it was.
    - [getAllLinks] also receives the fate of its cursor ([stepping]):
      [None] when [rows.Next] runs through all rows, [Some k] when it stops
      on a failure after [k] rows.
    - [saveLink] receives the value of [CURRENT_TIMESTAMP] at the time the
      statement runs ([now]), as a number of seconds. *)

From Stdlib Require Import ZArith String Ascii List Lia.
From stdpp Require Import base option list sorting strings gmap.

Local Open Scope string_scope.
Local Open Scope list_scope.
Local Open Scope Z_scope.

(** ** Go values *)

(** [strings.HasPrefix(s, prefix)]. *)
Definition HasPrefix (s prefix : string) : bool := String.prefix prefix s.

Inductive error : Type :=
| ErrNoRows                      (* sql.ErrNoRows *)
| Errorf (msg : string)          (* fmt.Errorf(msg) *)
| DriverError (msg : string).    (* any other failure reported by database/sql *)

(** [err.Error()]. *)
Definition Error (e : error) : string :=
  match e with
  | ErrNoRows => "sql: no rows in result set"
  | Errorf msg => msg
  | DriverError msg => msg
  end.

(** The two members of the spec's taxonomy a repository method can return. *)
Definition NotFoundError : error := Errorf "shortcode not found".
Definition StoreError (msg : string) : error := DriverError msg.

Record Link : Type := mkLink { Shortcode : string; URL : string }.

Inductive payload : Type :=
| NoData
| DataLink (l : Link)
| DataLinks (ls : list Link).

Record Response : Type := mkResponse {
  Success : bool;
  Message : string;
  Data : payload
}.

(** ** The table [links] *)

Record Row : Type := mkRow {
  shortcode : string;     (* TEXT PRIMARY KEY *)
  url : string;           (* TEXT NOT NULL *)
  created_at : Z          (* DATETIME DEFAULT CURRENT_TIMESTAMP *)
}.

Global Instance Row_eq_dec : EqDecision Row.
Proof. solve_decision. Defined.

(** Rows in rowid order. *)
Record LinkForwarder : Type := mkLF { db : list Row }.

(** The table right after [initDB] on a fresh file. *)
Definition empty_store : LinkForwarder := mkLF [].

(** The order of [ORDER BY created_at DESC]: [r1] may come before [r2]. *)
Definition newest_first : relation Row :=
  λ r1 r2, created_at r2 ≤ created_at r1.

Global Instance newest_first_dec r1 r2 : Decision (newest_first r1 r2).
Proof. unfold newest_first. apply _. Defined.

Global Instance newest_first_total : Total newest_first.
Proof. intros r1 r2. unfold newest_first. lia. Qed.

Global Instance newest_first_trans : Transitive newest_first.
Proof. intros r1 r2 r3. unfold newest_first. lia. Qed.

Module Sqlite.

(** [INSERT OR REPLACE INTO links (shortcode, url) VALUES (?, ?)]:
    the row that conflicts on the primary key is deleted, then the new row
    is inserted with the next rowid and the column default for
    [created_at]. *)
Definition insert_or_replace (fault : option string) (now : Z)
    (t : list Row) (sc u : string) : list Row * option error :=
  match fault with
  | Some msg => (t, Some (DriverError msg))
  | None => (filter (λ r, shortcode r ≠ sc) t ++ [mkRow sc u now], None)
  end.

(** [SELECT url FROM links WHERE shortcode = ?] through
    [QueryRow(...).Scan(&url)]: the first row of the result, or
    [sql.ErrNoRows]. *)
Definition select_url (fault : option string)
    (t : list Row) (sc : string) : string * option error :=
  match fault with
  | Some msg => ("", Some (DriverError msg))
  | None =>
      match filter (λ r, shortcode r = sc) t with
      | r :: _ => (url r, None)
      | [] => ("", Some ErrNoRows)
      end
  end.

(** The sorter of [ORDER BY created_at DESC]: the rows are taken in rowid
    order and each goes before the first row that is not newer than it, so
    rows of equal [created_at] stay in rowid order. *)
Fixpoint insert_desc (r : Row) (sorted : list Row) : list Row :=
  match sorted with
  | [] => [r]
  | x :: xs =>
      if decide (created_at r < created_at x) then x :: insert_desc r xs
      else r :: x :: xs
  end.

Definition order_by_created_at_desc (t : list Row) : list Row :=
  foldr insert_desc [] t.

(** [SELECT shortcode, url FROM links ORDER BY created_at DESC] through
    [Query] and [rows.Next]: [Query] returns the error when the statement
    fails outright ([fault]); when the cursor fails after [k] rows
    ([stepping = Some k]), [rows.Next] just stops there and only
    [rows.Err], which the program does not read, knows why. *)
Definition select_all (fault : option string) (stepping : option nat)
    (t : list Row) : list Row * option error :=
  match fault with
  | Some msg => ([], Some (DriverError msg))
  | None =>
      match stepping with
      | Some k => (take k (order_by_created_at_desc t), None)
      | None => (order_by_created_at_desc t, None)
      end
  end.

(** [DELETE FROM links WHERE shortcode = ?], with the count that
    [RowsAffected] reports for it. *)
Definition delete (fault : option string)
    (t : list Row) (sc : string) : list Row * (Z + error) :=
  match fault with
  | Some msg => (t, inr (DriverError msg))
  | None =>
      (filter (λ r, shortcode r ≠ sc) t,
       inl (Z.of_nat (length (filter (λ r, shortcode r = sc) t))))
  end.

End Sqlite.

(** ** The repository: methods of [LinkForwarder] *)

Definition saveLink (lf : LinkForwarder) (fault : option string) (now : Z)
    (shortcode url : string) : LinkForwarder * option error :=
  let url :=
    if negb (HasPrefix url "http://") && negb (HasPrefix url "https://")
    then "https://" +:+ url
    else url in
  let '(t, err) := Sqlite.insert_or_replace fault now (db lf) shortcode url in
  (mkLF t, err).

Definition getURL (lf : LinkForwarder) (fault : option string)
    (shortcode : string) : string * option error :=
  let '(url, err) := Sqlite.select_url fault (db lf) shortcode in
  match err with
  | Some ErrNoRows => ("", Some (Errorf "shortcode not found"))
  | _ => (url, err)
  end.

(** The two columns are text that the program itself wrote, so
    [rows.Scan] into two strings does not fail; the loop ends when
    [rows.Next] returns false, and [rows.Err] is not read. *)
Definition getAllLinks (lf : LinkForwarder) (fault : option string)
    (stepping : option nat) : list Link * option error :=
  match Sqlite.select_all fault stepping (db lf) with
  | (_, Some err) => ([], Some err)
  | (rows, None) =>
      (foldl (λ links r, links ++ [mkLink (shortcode r) (url r)]) [] rows,
       None)
  end.

Definition deleteLink (lf : LinkForwarder) (fault : option string)
    (shortcode : string) : LinkForwarder * option error :=
  match Sqlite.delete fault (db lf) shortcode with
  | (t, inr err) => (mkLF t, Some err)
  | (t, inl affected) =>
      if affected =? 0
      then (mkLF t, Some (Errorf "shortcode not found"))
      else (mkLF t, None)
  end.

(** ** HTTP *)

Definition StatusOK : Z := 200.
Definition StatusFound : Z := 302.
Definition StatusBadRequest : Z := 400.
Definition StatusNotFound : Z := 404.
Definition StatusMethodNotAllowed : Z := 405.
Definition StatusInternalServerError : Z := 500.

(** What a handler needs of [*http.Request]: the method, the route
    variables of [mux.Vars(r)], and the outcome of decoding the body as a
    [Link] ([None] when [Decode] fails; a JSON field that is missing is the
    empty string). *)
Record Request : Type := mkRequest {
  Method : string;
  Vars : gmap string string;
  Body : option Link
}.

(** What a handler writes: the call it makes on the response writer. *)
Inductive reply : Type :=
| http_Error (msg : string) (code : Z)        (* http.Error(w, msg, code) *)
| http_Redirect (target : string) (code : Z)  (* http.Redirect(w, r, target, code) *)
| json_Encode (code : Z) (body : Response).   (* w.WriteHeader(code); Encode(body) *)

Definition status (rp : reply) : Z :=
  match rp with
  | http_Error _ code => code
  | http_Redirect _ code => code
  | json_Encode code _ => code
  end.

(** [vars["shortcode"]]: a Go map yields the zero value for a missing key. *)
Definition var (r : Request) (key : string) : string :=
  default "" (Vars r !! key).

(** [handleForward] of [cmd/server/main.go]: an unknown shortcode is sent
    back to the management page. *)
Module CmdServer.

Definition handleForward (lf : LinkForwarder) (fault : option string)
    (r : Request) : reply :=
  let shortcode := var r "shortcode" in
  if String.eqb shortcode "" then
    http_Error "Shortcode is required" StatusBadRequest
  else
    let '(url, err) := getURL lf fault shortcode in
    match err with
    | Some _ =>
        let redirectURL :=
          "/?shortcode=" +:+ shortcode +:+ "&error=not_found" in
        http_Redirect redirectURL StatusFound
    | None => http_Redirect url StatusFound
    end.

End CmdServer.

(** [handleForward] of the root-level server: an unknown shortcode is a
    plain 404. *)
Module RootServer.

Definition handleForward (lf : LinkForwarder) (fault : option string)
    (r : Request) : reply :=
  let shortcode := var r "shortcode" in
  if String.eqb shortcode "" then
    http_Error "Shortcode is required" StatusBadRequest
  else
    let '(url, err) := getURL lf fault shortcode in
    match err with
    | Some _ => http_Error "Link not found" StatusNotFound
    | None => http_Redirect url StatusFound
    end.

End RootServer.

(** [handleAPI], the same in both servers. *)
Definition handleAPI (lf : LinkForwarder) (fault : option string)
    (stepping : option nat) (now : Z) (r : Request) : LinkForwarder * reply :=
  if String.eqb (Method r) "GET" then
    let '(links, err) := getAllLinks lf fault stepping in
    match err with
    | Some _ =>
        (lf, json_Encode StatusInternalServerError
               (mkResponse false "Failed to retrieve links" NoData))
    | None =>
        (lf, json_Encode StatusOK
               (mkResponse true "Links retrieved successfully"
                  (DataLinks links)))
    end
  else if String.eqb (Method r) "POST" then
    match Body r with
    | None =>
        (lf, json_Encode StatusBadRequest
               (mkResponse false "Invalid JSON" NoData))
    | Some link =>
        if String.eqb (Shortcode link) "" || String.eqb (URL link) "" then
          (lf, json_Encode StatusBadRequest
                 (mkResponse false "Shortcode and URL are required" NoData))
        else
          let '(lf', err) := saveLink lf fault now (Shortcode link) (URL link) in
          match err with
          | Some _ =>
              (lf', json_Encode StatusInternalServerError
                      (mkResponse false "Failed to save link" NoData))
          | None =>
              (lf', json_Encode StatusOK
                      (mkResponse true "Link saved successfully"
                         (DataLink link)))
          end
    end
  else if String.eqb (Method r) "DELETE" then
    let shortcode := var r "shortcode" in
    if String.eqb shortcode "" then
      (lf, json_Encode StatusBadRequest
             (mkResponse false "Shortcode is required" NoData))
    else
      let '(lf', err) := deleteLink lf fault shortcode in
      match err with
      | Some err =>
          (lf', json_Encode StatusNotFound
                  (mkResponse false (Error err) NoData))
      | None =>
          (lf', json_Encode StatusOK
                  (mkResponse true "Link deleted successfully" NoData))
      end
  else
    (lf, json_Encode StatusMethodNotAllowed
           (mkResponse false "Method not allowed" NoData)).

(** A run of successful [saveLink] calls, oldest first: each entry is the
    shortcode, the url and the clock at the call. *)
Definition upserts (ops : list (string * string * Z)) (lf : LinkForwarder)
    : LinkForwarder :=
  foldl (λ lf op, (saveLink lf None op.2 op.1.1 op.1.2).1) lf ops.

(** The url as [saveLink] stores it. *)
Definition stored_url (u : string) : string :=
  (if negb (HasPrefix u "http://") && negb (HasPrefix u "https://")
   then "https://" +:+ u else u)%string.

(** The number of rows of a shortcode. *)
Definition records (lf : LinkForwarder) (sc : string) : nat :=
  length (filter (λ r, shortcode r = sc) (db lf)).

(** ** Vocabulary of the statements *)

(** The url begins with one of the two recognised schemes. *)
Definition has_scheme (u : string) : bool :=
  HasPrefix u "http://" || HasPrefix u "https://".

(** The [Link] that a [SELECT shortcode, url] yields for a row. *)
Definition link_of (r : Row) : Link := mkLink (shortcode r) (url r).

(** The row that a successful [saveLink] writes. *)
Definition row_of (op : string * string * Z) : Row :=
  mkRow op.1.1 (stored_url op.1.2) op.2.

(** [SELECT created_at FROM links WHERE shortcode = ?]. *)
Definition created (lf : LinkForwarder) (sc : string) : option Z :=
  created_at <$> head (filter (λ r, shortcode r = sc) (db lf)).

(** The calls that change the store, with the engine's verdict for each. *)
Inductive call : Type :=
| Upsert (fault : option string) (now : Z) (sc u : string)
| Delete (fault : option string) (sc : string).

Definition step (lf : LinkForwarder) (c : call) : LinkForwarder :=
  match c with
  | Upsert fault now sc u => (saveLink lf fault now sc u).1
  | Delete fault sc => (deleteLink lf fault sc).1
  end.

(** The store after a history of calls, oldest first. *)
Definition run (cs : list call) (lf : LinkForwarder) : LinkForwarder :=
  foldl step lf cs.

(** The primary key: no two rows share a shortcode. *)
Definition unique_shortcodes (lf : LinkForwarder) : Prop :=
  NoDup (shortcode <$> db lf).

(** Requests as the router hands them to the handlers. *)
Definition forward_request (sc : string) : Request :=
  mkRequest "GET" {["shortcode" := sc]} None.

Definition delete_request (sc : string) : Request :=
  mkRequest "DELETE" {["shortcode" := sc]} None.

Definition post_request (sc u : string) : Request :=
  mkRequest "POST" ∅ (Some (mkLink sc u)).

(** Every url in a store built by the repository begins with a scheme. *)
Definition normalized (lf : LinkForwarder) : Prop :=
  Forall (λ r, has_scheme (url r) = true) (db lf).

(** No row is keyed by the empty shortcode. *)
Definition no_empty_shortcode (lf : LinkForwarder) : Prop :=
  records lf "" = 0%nat.

(** The table read as a finite map from shortcode to url. *)
Definition link_map (lf : LinkForwarder) : gmap string string :=
  list_to_map ((λ r, (shortcode r, url r)) <$> db lf).

(** ** Startup *)

(** The two default links that [main] saves right after opening the store;
    it drops the error of each [saveLink]. *)
Definition main_seed (lf : LinkForwarder) (fault1 fault2 : option string)
    (now1 now2 : Z) : LinkForwarder :=
  let lf := (saveLink lf fault1 now1 "google" "https://www.google.com").1 in
  (saveLink lf fault2 now2 "github" "https://github.com").1.




(** ** The command-line client *)

Module Cli.

(** What [Decode] into an [interface{}] yields: [nil], [bool], [float64]
    (its 64 bits), [string], [[]interface{}] and
    [map[string]interface{}]. *)
#[warnings="-register-all"]
Inductive any : Type :=
| Nil
| Bool (b : bool)
| Float64 (bits : N)
| Str (s : string)
| Slice (items : list any)
| Map (m : gmap string any).

Record CLIResponse : Type := mkCLIResponse {
  Success : bool;
  Message : string;
  Data : any
}.

(** How a request of the client ends: [http.Post], [http.Get] or
    [client.Do] fails, or the body does not decode into a [CLIResponse],
    or it does. *)
Inductive exchange : Type :=
| ConnectError (err : string)
| DecodeError (err : string)
| Decoded (response : CLIResponse).

(** What the client writes: straight to standard output, or into the
    [tabwriter] that aligns the cells when it is flushed. *)
Inductive output : Type :=
| Stdout (text : string)
| Tabwriter (text : string).

Definition newline : string := String "010" "".
Definition tab : string := String "009" "".

(** [strings.Split(s, sep)] for a separator of one byte. *)
Fixpoint Split (s : string) (sep : ascii) : list string :=
  match s with
  | EmptyString => [""]
  | String c s' =>
      if Ascii.eqb c sep then "" :: Split s' sep
      else match Split s' sep with
           | p :: ps => String c p :: ps
           | [] => [String c ""]
           end
  end.

(** [strings.Count(s, sep)] for a separator of one byte. *)
Fixpoint Count (s : string) (sep : ascii) : nat :=
  match s with
  | EmptyString => 0
  | String c s' => if Ascii.eqb c sep then S (Count s' sep) else Count s' sep
  end.

Definition getString (m : gmap string any) (key : string) : string :=
  match m !! key with
  | Some (Str str) => str
  | _ => ""
  end.

Section client.

(** [strings.TrimSpace], and the server as the client sees it. *)
Variable TrimSpace : string → string.
Variable Post : string → gmap string string → exchange.
Variable Get : string → exchange.

Definition handleAdd (serverURL addArg : string) : output :=
  let parts := Split addArg "," in
  if negb (length parts =? 2)%nat then
    Stdout ("Error: Invalid format. Use: shortcode,url" +:+ newline)
  else
    let shortcode := TrimSpace (nth 0 parts "") in
    let url := TrimSpace (nth 1 parts "") in
    if String.eqb shortcode "" || String.eqb url "" then
      Stdout ("Error: Both shortcode and URL are required" +:+ newline)
    else
      let payload : gmap string string :=
        {[ "shortcode" := shortcode; "url" := url ]} in
      match Post (serverURL +:+ "/api/links") payload with
      | ConnectError err =>
          Stdout ("Error: Failed to connect to server: " +:+ err +:+ newline)
      | DecodeError err =>
          Stdout ("Error: Failed to decode response: " +:+ err +:+ newline)
      | Decoded response =>
          if Success response then
            Stdout ("✓ Link added: " +:+ shortcode +:+ " -> " +:+ url
                    +:+ newline)
          else Stdout ("Error: " +:+ Message response +:+ newline)
      end.

Definition handleList (serverURL : string) : output :=
  match Get (serverURL +:+ "/api/links") with
  | ConnectError err =>
      Stdout ("Error: Failed to connect to server: " +:+ err +:+ newline)
  | DecodeError err =>
      Stdout ("Error: Failed to decode response: " +:+ err +:+ newline)
  | Decoded response =>
      if negb (Success response) then
        Stdout ("Error: " +:+ Message response +:+ newline)
      else
        match Data response with
        | Slice ((_ :: _) as data) =>
            Tabwriter
              (foldl
                 (λ w item,
                    match item with
                    | Map link =>
                        w +:+ getString link "shortcode" +:+ tab
                          +:+ getString link "url" +:+ newline
                    | _ => w
                    end)
                 ("SHORTCODE" +:+ tab +:+ "URL" +:+ newline
                  +:+ "---------" +:+ tab +:+ "---" +:+ newline)
                 data)
        | _ => Stdout ("No links found" +:+ newline)
        end
  end.

End client.

(** The [interface{}] that a [Link] of the server decodes to on the client:
    an object with the two fields of its JSON tags. *)
Definition link_object (link : string * string) : any :=
  Map {[ "shortcode" := Str link.1; "url" := Str link.2 ]}.

(** The two header lines and one line per link, as written into the
    [tabwriter]. *)
Definition table_row (link : string * string) : string :=
  link.1 +:+ tab +:+ link.2 +:+ newline.

Definition table_text (links : list (string * string)) : string :=
  ("SHORTCODE" +:+ tab +:+ "URL" +:+ newline
   +:+ "---------" +:+ tab +:+ "---" +:+ newline)
  +:+ foldr (λ link rest, table_row link +:+ rest) "" links.

End Cli.

(** ** The scenarios of the specification *)

Example ex_github :
  getURL (saveLink empty_store None 5 "github" "github.com").1 None "github"
  = ("https://github.com", None).
Proof. vm_compute. reflexivity. Qed.

Example ex_http :
  getURL (saveLink empty_store None 5 "x" "http://example.org").1 None "x"
  = ("http://example.org", None).
Proof. vm_compute. reflexivity. Qed.

Example ex_delete_missing :
  deleteLink empty_store None "missing" = (empty_store, Some NotFoundError).
Proof. vm_compute. reflexivity. Qed.

Example ex_list :
  getAllLinks (upserts [("a", "a.com", 1); ("b", "b.com", 3); ("c", "c.com", 2)]
                 empty_store) None None
  = ([mkLink "b" "https://b.com"; mkLink "c" "https://c.com";
      mkLink "a" "https://a.com"], None).
Proof. vm_compute. reflexivity. Qed.

(** ** Strings *)

Lemma prefix_append (p s : string) : String.prefix p (p +:+ s) = true.
Proof.
  induction p as [|a p IH]; simpl.
  - by destruct s.
  - destruct (ascii_dec a a) as [_|Hne]; [exact IH | congruence].
Qed.

Lemma has_scheme_stored_url (u : string) : has_scheme (stored_url u) = true.
Proof.
  unfold stored_url, has_scheme.
  destruct (HasPrefix u "http://") eqn:E1; cbn [negb andb];
    [by rewrite E1|].
  destruct (HasPrefix u "https://") eqn:E2; cbn [negb andb];
    [by rewrite E1, E2|].
  unfold HasPrefix. rewrite (prefix_append "https://" u).
  apply orb_true_r.
Qed.

Lemma stored_url_spec (u : string) :
  stored_url u = if has_scheme u then u else "https://" +:+ u.
Proof.
  unfold stored_url, has_scheme.
  by destruct (HasPrefix u "http://"), (HasPrefix u "https://").
Qed.

(** ** The table under the four statements *)

Section table.
Implicit Types (t : list Row) (sc : string).

Lemma others_of_others t sc :
  filter (λ r, shortcode r ≠ sc) (filter (λ r, shortcode r ≠ sc) t)
  = filter (λ r, shortcode r ≠ sc) t.
Proof.
  induction t as [|r t IH]; [done|].
  rewrite filter_cons. case_decide; [|done].
  rewrite filter_cons_True by done. by rewrite IH.
Qed.

Lemma same_of_others t sc :
  filter (λ r, shortcode r = sc) (filter (λ r, shortcode r ≠ sc) t) = [].
Proof.
  induction t as [|r t IH]; [done|].
  rewrite filter_cons. case_decide; [|done].
  by rewrite filter_cons_False.
Qed.

Lemma others_when_absent t sc :
  filter (λ r, shortcode r = sc) t = [] →
  filter (λ r, shortcode r ≠ sc) t = t.
Proof.
  induction t as [|r t IH]; [done|].
  rewrite !filter_cons. intros H.
  destruct (decide (shortcode r = sc)) as [|Hne]; [done|].
  rewrite decide_True by done. by rewrite IH.
Qed.

Lemma others_commute t sc sc' :
  sc' ≠ sc →
  filter (λ r, shortcode r = sc') (filter (λ r, shortcode r ≠ sc) t)
  = filter (λ r, shortcode r = sc') t.
Proof.
  intros Hne. induction t as [|r t IH]; [done|].
  rewrite !filter_cons.
  destruct (decide (shortcode r = sc')) as [E|H1].
  - rewrite decide_True by congruence. rewrite filter_cons_True by done.
    by rewrite IH.
  - destruct (decide (shortcode r ≠ sc)); [|done].
    rewrite filter_cons_False by done. done.
Qed.

Lemma Forall_filter (P Q : Row → Prop) `{∀ r, Decision (Q r)} t :
  Forall P t → Forall P (filter Q t).
Proof.
  rewrite !Forall_forall. intros HP r Hr.
  apply list_elem_of_filter in Hr as [_ Hr]. by apply HP.
Qed.

End table.

(** ** The repository methods when the statement executes *)

Lemma saveLink_ok lf now sc u :
  saveLink lf None now sc u
  = (mkLF (filter (λ r, shortcode r ≠ sc) (db lf)
           ++ [mkRow sc (stored_url u) now]), None).
Proof. reflexivity. Qed.

Lemma saveLink_fault lf msg now sc u :
  saveLink lf (Some msg) now sc u = (lf, Some (StoreError msg)).
Proof. by destruct lf. Qed.

Lemma getURL_found lf sc r rs :
  filter (λ r, shortcode r = sc) (db lf) = r :: rs →
  getURL lf None sc = (url r, None).
Proof. intros H. unfold getURL, Sqlite.select_url. by rewrite H. Qed.

Lemma getURL_absent lf sc :
  filter (λ r, shortcode r = sc) (db lf) = [] →
  getURL lf None sc = ("", Some NotFoundError).
Proof. intros H. unfold getURL, Sqlite.select_url. by rewrite H. Qed.

Lemma getURL_fault lf msg sc :
  getURL lf (Some msg) sc = ("", Some (StoreError msg)).
Proof. reflexivity. Qed.

Lemma rows_after_saveLink lf now sc u :
  filter (λ r, shortcode r = sc) (db (saveLink lf None now sc u).1)
  = [mkRow sc (stored_url u) now].
Proof.
  rewrite saveLink_ok. simpl.
  rewrite filter_app, same_of_others. simpl.
  by rewrite filter_cons_True.
Qed.

Lemma deleteLink_fault lf msg sc :
  deleteLink lf (Some msg) sc = (lf, Some (StoreError msg)).
Proof. by destruct lf. Qed.

Lemma deleteLink_absent lf sc :
  filter (λ r, shortcode r = sc) (db lf) = [] →
  deleteLink lf None sc = (lf, Some NotFoundError).
Proof.
  intros H. unfold deleteLink, Sqlite.delete. rewrite H. simpl.
  rewrite others_when_absent by done. by destruct lf.
Qed.

Lemma deleteLink_present lf sc r rs :
  filter (λ r, shortcode r = sc) (db lf) = r :: rs →
  deleteLink lf None sc
  = (mkLF (filter (λ r, shortcode r ≠ sc) (db lf)), None).
Proof.
  intros H. unfold deleteLink, Sqlite.delete. rewrite H.
  by destruct (Z.of_nat (length (r :: rs)) =? 0) eqn:E; [simpl in E; lia|].
Qed.

Lemma step_normalized lf c : normalized lf → normalized (step lf c).
Proof.
  unfold normalized. intros H. destruct c as [[msg|] now sc u|[msg|] sc]; cbn [step].
  - by rewrite saveLink_fault.
  - rewrite saveLink_ok. simpl. apply Forall_app. split.
    + by apply Forall_filter.
    + repeat constructor. apply has_scheme_stored_url.
  - by rewrite deleteLink_fault.
  - destruct (filter (λ r, shortcode r = sc) (db lf)) as [|r rs] eqn:E.
    + by rewrite deleteLink_absent.
    + rewrite (deleteLink_present _ _ _ _ E). simpl. by apply Forall_filter.
Qed.

Lemma run_normalized cs lf : normalized lf → normalized (run cs lf).
Proof.
  revert lf. induction cs as [|c cs IH]; intros lf H; [done|].
  simpl. apply IH. by apply step_normalized.
Qed.

(** ** Upsert and Lookup *)

(** C1.  After a successful [saveLink] of a pair, [getURL] of its shortcode
    returns the url itself when it begins with "http://" or "https://" and
    "https://" followed by the url when it does not; the value returned begins
    with one of the two schemes, and so does every url of every store that a
    history of repository calls builds from the empty table. *)
Theorem upsert_lookup_normalized lf now sc u cs :
  getURL (saveLink lf None now sc u).1 None sc
  = (if HasPrefix u "http://" || HasPrefix u "https://"
     then u else "https://" +:+ u, None)
  ∧ has_scheme (getURL (saveLink lf None now sc u).1 None sc).1 = true
  ∧ Forall (λ r, HasPrefix (url r) "http://" || HasPrefix (url r) "https://"
                 = true)
      (db (run cs empty_store)).
Proof.
  assert (Hget : getURL (saveLink lf None now sc u).1 None sc
                 = (stored_url u, None)).
  { erewrite getURL_found; [|apply rows_after_saveLink]. done. }
  split; [|split].
  - rewrite Hget, stored_url_spec. done.
  - rewrite Hget. apply has_scheme_stored_url.
  - apply (run_normalized cs empty_store). constructor.
Qed.

(** C2, as the code has it.  Two successful [saveLink] calls with the same
    pair leave exactly one row for the shortcode; the table after the second
    call is the table after the first one with the [created_at] of that row
    set to the clock of the second call, so shortcodes and urls are the same,
    row by row, and the whole state is the same when both calls see the same
    clock. *)
Theorem upsert_twice lf now1 now2 sc u :
  let once := (saveLink lf None now1 sc u).1 in
  let twice := (saveLink once None now2 sc u).1 in
  records twice sc = 1%nat
  ∧ db once = filter (λ r, shortcode r ≠ sc) (db lf)
              ++ [mkRow sc (stored_url u) now1]
  ∧ db twice = filter (λ r, shortcode r ≠ sc) (db lf)
               ++ [mkRow sc (stored_url u) now2]
  ∧ link_of <$> db twice = link_of <$> db once
  ∧ (saveLink once None now1 sc u).1 = once.
Proof.
  intros once twice.
  assert (Hrows : ∀ now,
    db (saveLink once None now sc u).1
    = filter (λ r, shortcode r ≠ sc) (db lf) ++ [mkRow sc (stored_url u) now]).
  { intros now. subst once. rewrite !saveLink_ok. simpl.
    rewrite filter_app, others_of_others. simpl.
    rewrite filter_cons_False by (simpl; tauto). by rewrite app_nil_r. }
  split; [|split; [|split; [|split]]].
  - unfold records. subst twice. by rewrite rows_after_saveLink.
  - done.
  - apply Hrows.
  - subst twice. rewrite Hrows. subst once. rewrite saveLink_ok. simpl.
    by rewrite !fmap_app.
  - specialize (Hrows now1). destruct (saveLink once None now1 sc u).1.
    simpl in Hrows. subst once. rewrite saveLink_ok. simpl. by f_equal.
Qed.

(** C2 as stated fails: the second call rewrites [created_at]. *)
Lemma upsert_twice_not_identical :
  (saveLink (saveLink empty_store None 1 "a" "b.org").1 None 2 "a" "b.org").1
  ≠ (saveLink empty_store None 1 "a" "b.org").1.
Proof. vm_compute. discriminate. Qed.

(** ** Delete *)

(** C3.  [deleteLink] of a shortcode that has no row returns the not-found
    error and leaves the store as it is; [deleteLink] of a shortcode that has
    a row succeeds, removes its rows and no others, and a [getURL] of the
    shortcode afterwards returns the not-found error. *)
Theorem delete_absent_present lf sc :
  match records lf sc with
  | O => deleteLink lf None sc = (lf, Some NotFoundError)
  | S _ =>
      deleteLink lf None sc
      = (mkLF (filter (λ r, shortcode r ≠ sc) (db lf)), None)
      ∧ records (deleteLink lf None sc).1 sc = 0%nat
      ∧ getURL (deleteLink lf None sc).1 None sc = ("", Some NotFoundError)
  end.
Proof.
  unfold records.
  destruct (filter (λ r, shortcode r = sc) (db lf)) as [|r rs] eqn:E; simpl.
  - by apply deleteLink_absent.
  - rewrite (deleteLink_present _ _ _ _ E). simpl.
    split; [done|]. split.
    + by rewrite same_of_others.
    + apply getURL_absent. simpl. apply same_of_others.
Qed.

(** ** created_at *)

(** C5, as the code has it.  A successful [saveLink] replaces the row: the
    [created_at] of its shortcode is the clock of that call, whether or not
    the shortcode had a row before; the [created_at] of every other shortcode
    is untouched. *)
Theorem overwrite_resets_created_at lf now sc u sc' :
  created (saveLink lf None now sc u).1 sc'
  = if decide (sc' = sc) then Some now else created lf sc'.
Proof.
  unfold created. case_decide as Hsc.
  - subst sc'. by rewrite rows_after_saveLink.
  - rewrite saveLink_ok. simpl. rewrite filter_app.
    rewrite filter_cons_False by (simpl; congruence).
    rewrite filter_nil, app_nil_r. by rewrite others_commute.
Qed.

(** C5 as stated fails: an overwrite at clock 2 of a row created at clock 1
    leaves [created_at] at 2. *)
Lemma overwrite_changes_created_at :
  created (saveLink empty_store None 1 "a" "b.org").1 "a" = Some 1
  ∧ created (saveLink (saveLink empty_store None 1 "a" "b.org").1
               None 2 "a" "c.org").1 "a" = Some 2
  ∧ created (saveLink (saveLink empty_store None 1 "a" "b.org").1
               None 2 "a" "c.org").1 "a"
    ≠ created (saveLink empty_store None 1 "a" "b.org").1 "a".
Proof. vm_compute. repeat split; discriminate. Qed.

(** ** ListAll *)

Lemma insert_desc_Permutation (r : Row) (l : list Row) :
  Sqlite.insert_desc r l ≡ₚ r :: l.
Proof.
  induction l as [|x l IH]; [done|]. cbn [Sqlite.insert_desc].
  case_decide; [|done]. rewrite IH. apply Permutation_swap.
Qed.

Lemma order_by_Permutation (t : list Row) :
  Sqlite.order_by_created_at_desc t ≡ₚ t.
Proof.
  induction t as [|r t IH]; [done|].
  cbn [Sqlite.order_by_created_at_desc foldr].
  fold (Sqlite.order_by_created_at_desc t).
  by rewrite insert_desc_Permutation, IH.
Qed.

Lemma insert_desc_sorted (r : Row) (l : list Row) :
  StronglySorted newest_first l →
  StronglySorted newest_first (Sqlite.insert_desc r l).
Proof.
  induction l as [|x l IH]; intros Hl; cbn [Sqlite.insert_desc].
  - repeat constructor.
  - apply StronglySorted_inv in Hl as [Hl Hx]. case_decide as Hlt.
    + constructor; [by apply IH|].
      rewrite insert_desc_Permutation. constructor; [|done].
      unfold newest_first. lia.
    + constructor; [by constructor|]. constructor.
      * unfold newest_first. lia.
      * eapply Forall_impl; [exact Hx|]. unfold newest_first. intros y Hy.
        simpl in *. lia.
Qed.

Lemma order_by_sorted (t : list Row) :
  StronglySorted newest_first (Sqlite.order_by_created_at_desc t).
Proof.
  induction t as [|r t IH]; [constructor|].
  cbn [Sqlite.order_by_created_at_desc foldr].
  by apply insert_desc_sorted.
Qed.

(** Rows of one second keep the order they have in the table. *)
Lemma insert_desc_same_second (r : Row) (l : list Row) (s : Z) :
  filter (λ x, created_at x = s) (Sqlite.insert_desc r l)
  = filter (λ x, created_at x = s) (r :: l).
Proof.
  induction l as [|x l IH]; [done|]. cbn [Sqlite.insert_desc].
  case_decide as Hlt; [|done].
  rewrite filter_cons, IH, !filter_cons.
  destruct (decide (created_at x = s)), (decide (created_at r = s));
    try done; lia.
Qed.

Lemma order_by_same_second (t : list Row) (s : Z) :
  filter (λ x, created_at x = s) (Sqlite.order_by_created_at_desc t)
  = filter (λ x, created_at x = s) t.
Proof.
  induction t as [|r t IH]; [done|].
  cbn [Sqlite.order_by_created_at_desc foldr].
  fold (Sqlite.order_by_created_at_desc t).
  by rewrite insert_desc_same_second, !filter_cons, IH.
Qed.

Lemma foldl_snoc_fmap {A B} (f : A → B) (l : list A) (acc : list B) :
  foldl (λ acc x, acc ++ [f x]) acc l = acc ++ (f <$> l).
Proof.
  revert acc. induction l as [|x l IH]; intros acc; simpl.
  - by rewrite app_nil_r.
  - rewrite IH. by rewrite <- app_assoc.
Qed.

Lemma getAllLinks_ok lf :
  getAllLinks lf None None = (link_of <$> Sqlite.order_by_created_at_desc (db lf), None).
Proof.
  unfold getAllLinks, Sqlite.select_all.
  by rewrite (foldl_snoc_fmap link_of).
Qed.

Lemma getAllLinks_fault lf msg stepping :
  getAllLinks lf (Some msg) stepping = ([], Some (StoreError msg)).
Proof. reflexivity. Qed.

Lemma others_when_fresh (t : list Row) sc :
  sc ∉ shortcode <$> t → filter (λ r, shortcode r ≠ sc) t = t.
Proof.
  intros Hfresh. apply others_when_absent.
  destruct (filter (λ r, shortcode r = sc) t) as [|r rs] eqn:E; [done|].
  exfalso. apply Hfresh.
  assert (Hr : r ∈ filter (λ r, shortcode r = sc) t) by (rewrite E; left).
  apply list_elem_of_filter in Hr as [<- Hr].
  by apply list_elem_of_fmap_2.
Qed.

Lemma upserts_cons sc u now ops lf :
  upserts ((sc, u, now) :: ops) lf
  = upserts ops (saveLink lf None now sc u).1.
Proof. reflexivity. Qed.

Lemma upserts_fresh ops lf :
  NoDup ((shortcode <$> db lf) ++ ops.*1.*1) →
  db (upserts ops lf) = db lf ++ (row_of <$> ops).
Proof.
  revert lf. induction ops as [|[[sc u] now] ops IH]; intros lf Hnd.
  - simpl. by rewrite app_nil_r.
  - rewrite upserts_cons, saveLink_ok. cbn [fst].
    apply NoDup_app in Hnd as (Hlf & Hdisj & Hops).
    cbn [fmap list_fmap fst] in Hdisj, Hops.
    apply NoDup_cons in Hops as [Hsc Hops].
    assert (Hfresh : sc ∉ shortcode <$> db lf).
    { intros Hin. apply (Hdisj sc Hin). left. }
    rewrite IH; cbn [db].
    + rewrite others_when_fresh by done.
      by rewrite <- app_assoc.
    + rewrite others_when_fresh by done.
      rewrite fmap_app. cbn [fmap list_fmap shortcode].
      rewrite <- app_assoc. apply NoDup_app. split; [done|]. split.
      * intros x Hx Hx'. apply elem_of_cons in Hx' as [->|Hx']; [done|].
        apply (Hdisj x Hx). by right.
      * by apply NoDup_cons.
Qed.

(** C4, as the code has it.  [getAllLinks] on the empty table returns the
    empty sequence and no error.  After successful [saveLink] calls with
    pairwise distinct shortcodes on the empty table, the table holds one row
    per call, carrying the clock of its call as [created_at], and
    [getAllLinks] returns as many links as there were calls: the links of
    those rows, arranged so that no row comes before one whose [created_at]
    is later, and the rows of one and the same second in the order in which
    they were created, oldest first. *)
Theorem list_all_by_created_at (ops : list (string * string * Z)) :
  NoDup (ops.*1.*1) →
  getAllLinks empty_store None None = ([], None)
  ∧ db (upserts ops empty_store) = row_of <$> ops
  ∧ ∃ rows,
      getAllLinks (upserts ops empty_store) None None = (link_of <$> rows, None)
      ∧ length (link_of <$> rows) = length ops
      ∧ rows ≡ₚ row_of <$> ops
      ∧ StronglySorted (λ r1 r2, created_at r2 ≤ created_at r1) rows
      ∧ ∀ second, filter (λ r, created_at r = second) rows
                  = filter (λ r, created_at r = second) (row_of <$> ops).
Proof.
  intros Hnd.
  assert (Hdb : db (upserts ops empty_store) = row_of <$> ops).
  { by rewrite upserts_fresh. }
  split; [done|]. split; [done|].
  exists (Sqlite.order_by_created_at_desc (db (upserts ops empty_store))).
  split; [apply getAllLinks_ok|].
  assert (Hperm := order_by_Permutation (db (upserts ops empty_store))).
  rewrite Hdb in Hperm |- *.
  split; [|split; [|split]].
  - by rewrite length_fmap, Hperm, length_fmap.
  - done.
  - apply order_by_sorted.
  - intros second. apply order_by_same_second.
Qed.

Lemma list_all_by_created_at_witness :
  NoDup ["a"; "b"; "c"]
  ∧ getAllLinks
      (upserts [("a", "a.com", 1); ("b", "http://b.com", 3); ("c", "c.com", 1)]
         empty_store) None None
    = ([mkLink "b" "http://b.com"; mkLink "a" "https://a.com";
        mkLink "c" "https://c.com"], None)
  ∧ db (upserts [("a", "a.com", 1); ("b", "http://b.com", 3); ("c", "c.com", 1)]
          empty_store)
    = [mkRow "a" "https://a.com" 1; mkRow "b" "http://b.com" 3;
       mkRow "c" "https://c.com" 1].
Proof.
  assert (Hnd : NoDup ["a"; "b"; "c"])
    by (apply (bool_decide_unpack _); vm_compute; exact I).
  split; [exact Hnd|]. split; [vm_compute; reflexivity|].
  exact (proj1 (proj2 (list_all_by_created_at
    [("a", "a.com", 1); ("b", "http://b.com", 3); ("c", "c.com", 1)] Hnd))).
Defined.

(** C4 as stated fails for two links saved within one second, the way
    [main] saves its two defaults: the one created last is listed last. *)
Lemma list_all_same_second_oldest_first :
  getAllLinks
    (upserts [("google", "https://www.google.com", 5);
              ("github", "https://github.com", 5)] empty_store) None None
  = ([mkLink "google" "https://www.google.com";
      mkLink "github" "https://github.com"], None)
  ∧ getAllLinks
      (upserts [("google", "https://www.google.com", 5);
                ("github", "https://github.com", 5)] empty_store) None None
    ≠ ([mkLink "github" "https://github.com";
        mkLink "google" "https://www.google.com"], None).
Proof. vm_compute. split; [reflexivity|discriminate]. Qed.

(** ** The primary key *)

Lemma unique_filter (P : Row → Prop) `{∀ r, Decision (P r)} (t : list Row) :
  NoDup (shortcode <$> t) → NoDup (shortcode <$> filter P t).
Proof.
  intros Hnd. apply (sublist_NoDup _ _ Hnd).
  apply fmap_sublist, sublist_filter.
Qed.

Lemma step_unique lf c : unique_shortcodes lf → unique_shortcodes (step lf c).
Proof.
  unfold unique_shortcodes. intros H.
  destruct c as [[msg|] now sc u|[msg|] sc]; cbn [step].
  - by rewrite saveLink_fault.
  - rewrite saveLink_ok. simpl. rewrite fmap_app. apply NoDup_app.
    split; [by apply unique_filter|]. split; [|apply NoDup_singleton].
    intros x Hx Hx'. apply list_elem_of_singleton in Hx'. simpl in Hx'. subst x.
    apply list_elem_of_fmap_1 in Hx as (r & Hsc & Hr).
    apply list_elem_of_filter in Hr as [Hne _]. by apply Hne.
  - by rewrite deleteLink_fault.
  - destruct (filter (λ r, shortcode r = sc) (db lf)) as [|r rs] eqn:E.
    + by rewrite deleteLink_absent.
    + rewrite (deleteLink_present _ _ _ _ E). simpl. by apply unique_filter.
Qed.

Lemma run_unique cs lf : unique_shortcodes lf → unique_shortcodes (run cs lf).
Proof.
  revert lf. induction cs as [|c cs IH]; intros lf H; [done|].
  simpl. apply IH. by apply step_unique.
Qed.

Lemma unique_row (t : list Row) (row : Row) :
  NoDup (shortcode <$> t) → row ∈ t →
  filter (λ r, shortcode r = shortcode row) t = [row].
Proof.
  induction t as [|r t IH]; intros Hnd Hin; [by apply elem_of_nil in Hin|].
  rewrite fmap_cons in Hnd. apply NoDup_cons in Hnd as [Hr Hnd].
  rewrite filter_cons. apply elem_of_cons in Hin as [->|Hin].
  - rewrite decide_True by done. f_equal.
    destruct (filter (λ r0, shortcode r0 = shortcode r) t) as [|x xs] eqn:E;
      [done|].
    exfalso. apply Hr.
    assert (Hx : x ∈ filter (λ r0, shortcode r0 = shortcode r) t)
      by (rewrite E; left).
    apply list_elem_of_filter in Hx as [<- Hx]. by apply list_elem_of_fmap_2.
  - rewrite decide_False; [by apply IH|].
    intros Heq. apply Hr. rewrite Heq. by apply list_elem_of_fmap_2.
Qed.

(** ** The stores of the program *)

Lemma getURL_same_rows lf lf' fault sc :
  filter (λ r, shortcode r = sc) (db lf)
  = filter (λ r, shortcode r = sc) (db lf') →
  getURL lf fault sc = getURL lf' fault sc.
Proof. intros H. unfold getURL, Sqlite.select_url. by rewrite H. Qed.

Lemma rows_of_other_after_saveLink lf fault now sc u sc' :
  sc' ≠ sc →
  filter (λ r, shortcode r = sc') (db (saveLink lf fault now sc u).1)
  = filter (λ r, shortcode r = sc') (db lf).
Proof.
  intros Hne. destruct fault as [msg|]; [by rewrite saveLink_fault|].
  rewrite saveLink_ok. cbn [fst db]. rewrite filter_app.
  rewrite filter_cons_False by (simpl; congruence).
  rewrite filter_nil, app_nil_r. by apply others_commute.
Qed.

Lemma deleteLink_db lf sc :
  db (deleteLink lf None sc).1 = filter (λ r, shortcode r ≠ sc) (db lf).
Proof.
  destruct (filter (λ r, shortcode r = sc) (db lf)) as [|r rs] eqn:E.
  - rewrite deleteLink_absent by done. simpl. by rewrite others_when_absent.
  - by rewrite (deleteLink_present _ _ _ _ E).
Qed.

Lemma rows_of_other_after_deleteLink lf fault sc sc' :
  sc' ≠ sc →
  filter (λ r, shortcode r = sc') (db (deleteLink lf fault sc).1)
  = filter (λ r, shortcode r = sc') (db lf).
Proof.
  intros Hne. destruct fault as [msg|]; [by rewrite deleteLink_fault|].
  rewrite deleteLink_db. by apply others_commute.
Qed.

(** Where the store of [handleAPI] comes from. *)
Lemma handleAPI_store lf fault stepping now r :
  (handleAPI lf fault stepping now r).1 = lf
  ∨ (∃ link, Shortcode link ≠ "" ∧ URL link ≠ ""
       ∧ (handleAPI lf fault stepping now r).1
         = step lf (Upsert fault now (Shortcode link) (URL link)))
  ∨ (∃ sc, (handleAPI lf fault stepping now r).1 = step lf (Delete fault sc)).
Proof.
  unfold handleAPI.
  destruct (String.eqb (Method r) "GET").
  { left. by destruct (getAllLinks lf fault stepping) as [links [e|]]. }
  destruct (String.eqb (Method r) "POST").
  { destruct (Body r) as [link|]; [|by left].
    destruct (String.eqb (Shortcode link) "") eqn:E1; [by left|].
    destruct (String.eqb (URL link) "") eqn:E2; [by left|].
    right. left. exists link. cbn [orb step].
    apply String.eqb_neq in E1, E2. split; [done|]. split; [done|].
    by destruct (saveLink lf fault now (Shortcode link) (URL link))
      as [lf' [e|]]. }
  destruct (String.eqb (Method r) "DELETE"); [|by left].
  destruct (String.eqb (var r "shortcode") ""); [by left|].
  right. right. exists (var r "shortcode"). cbn [step].
  by destruct (deleteLink lf fault (var r "shortcode")) as [lf' [e|]].
Qed.

Lemma step_no_empty lf c :
  match c with Upsert _ _ sc _ => sc ≠ "" | Delete _ _ => True end →
  no_empty_shortcode lf → no_empty_shortcode (step lf c).
Proof.
  unfold no_empty_shortcode, records. intros Hc H.
  destruct c as [fault now sc u|fault sc]; cbn [step].
  - rewrite rows_of_other_after_saveLink by done. done.
  - destruct (decide ("" = sc)) as [<-|Hne].
    + destruct fault as [msg|]; [by rewrite deleteLink_fault|].
      by rewrite deleteLink_db, same_of_others.
    + by rewrite rows_of_other_after_deleteLink.
Qed.





(** ** The forwarding handler *)

Lemma nonempty_eqb (s : string) : s ≠ "" → String.eqb s "" = false.
Proof. intros H. by apply String.eqb_neq. Qed.




(** C6, as the code has it.  When the shortcode of the route is not empty,
    every error of [getURL], the not-found error and a store failure alike,
    gets the same answer: the redirect to the management page with the error
    marker in [cmd/server], the plain 404 in the root-level server. *)
Theorem forward_any_error lf fault r err :
  var r "shortcode" ≠ "" →
  (getURL lf fault (var r "shortcode")).2 = Some err →
  CmdServer.handleForward lf fault r
  = http_Redirect ("/?shortcode=" +:+ var r "shortcode" +:+ "&error=not_found")
      StatusFound
  ∧ RootServer.handleForward lf fault r
    = http_Error "Link not found" StatusNotFound.
Proof.
  intros Hne Herr.
  unfold CmdServer.handleForward, RootServer.handleForward.
  rewrite (nonempty_eqb _ Hne).
  destruct (getURL lf fault (var r "shortcode")) as [u e].
  simpl in Herr. by subst e.
Qed.

Lemma forward_any_error_witness :
  CmdServer.handleForward empty_store (Some "database is locked")
    (forward_request "x")
  = http_Redirect "/?shortcode=x&error=not_found" 302
  ∧ RootServer.handleForward empty_store (Some "database is locked")
      (forward_request "x")
    = http_Error "Link not found" 404.
Proof.
  refine (forward_any_error empty_store (Some "database is locked")
            (forward_request "x") (StoreError "database is locked") _ _).
  - vm_compute. discriminate.
  - vm_compute. reflexivity.
Defined.

(** C6 as stated fails: a store failure is answered exactly like an absent
    shortcode, with no server-error status. *)
Lemma forward_store_error_as_not_found :
  (getURL empty_store None "x").2 = Some NotFoundError
  ∧ (getURL empty_store (Some "database is locked") "x").2
    = Some (StoreError "database is locked")
  ∧ CmdServer.handleForward empty_store (Some "database is locked")
      (forward_request "x")
    = CmdServer.handleForward empty_store None (forward_request "x")
  ∧ status (CmdServer.handleForward empty_store (Some "database is locked")
              (forward_request "x")) = 302
  ∧ RootServer.handleForward empty_store (Some "database is locked")
      (forward_request "x")
    = RootServer.handleForward empty_store None (forward_request "x")
  ∧ status (RootServer.handleForward empty_store (Some "database is locked")
              (forward_request "x")) = 404.
Proof. vm_compute. repeat split. Qed.

(** ** The management API *)

Lemma deleteLink_error_keeps lf fault sc err :
  (deleteLink lf fault sc).2 = Some err → (deleteLink lf fault sc).1 = lf.
Proof.
  destruct fault as [msg|]; [by rewrite deleteLink_fault|].
  destruct (filter (λ r, shortcode r = sc) (db lf)) as [|r rs] eqn:E.
  - by rewrite deleteLink_absent.
  - by rewrite (deleteLink_present _ _ _ _ E).
Qed.

(** C7, as the code has it.  A DELETE request with a non-empty shortcode
    whose [deleteLink] fails, with the not-found error or with a store
    failure alike, gets the 404 envelope carrying the text of the error, and
    the store is left as it was. *)
Theorem api_delete_any_error lf fault stepping now r err :
  Method r = "DELETE" →
  var r "shortcode" ≠ "" →
  (deleteLink lf fault (var r "shortcode")).2 = Some err →
  handleAPI lf fault stepping now r
  = (lf, json_Encode StatusNotFound (mkResponse false (Error err) NoData)).
Proof.
  intros Hm Hne Herr. unfold handleAPI. rewrite Hm. cbn [String.eqb].
  change (String.eqb "DELETE" "GET") with false.
  change (String.eqb "DELETE" "POST") with false.
  change (String.eqb "DELETE" "DELETE") with true. cbv iota.
  rewrite (nonempty_eqb _ Hne).
  pose proof (deleteLink_error_keeps _ _ _ _ Herr) as Hkeep.
  destruct (deleteLink lf fault (var r "shortcode")) as [lf' e].
  simpl in Herr, Hkeep. by subst.
Qed.

Lemma api_delete_any_error_witness :
  handleAPI empty_store (Some "disk I/O error") None 7 (delete_request "x")
  = (empty_store, json_Encode 404 (mkResponse false "disk I/O error" NoData)).
Proof.
  refine (api_delete_any_error empty_store (Some "disk I/O error") None 7
            (delete_request "x") (StoreError "disk I/O error") _ _ _).
  - reflexivity.
  - vm_compute. discriminate.
  - vm_compute. reflexivity.
Defined.

(** C7 as stated fails: a store failure of [deleteLink] gets the status 404,
    the same as an absent shortcode. *)
Lemma api_delete_store_error_is_404 :
  (deleteLink empty_store None "x").2 = Some NotFoundError
  ∧ (deleteLink empty_store (Some "disk I/O error") "x").2
    = Some (StoreError "disk I/O error")
  ∧ status (handleAPI empty_store (Some "disk I/O error") None 7
              (delete_request "x")).2 = 404
  ∧ status (handleAPI empty_store None None 7 (delete_request "x")).2 = 404.
Proof. vm_compute. repeat split. Qed.

(** C8, as the code has it.  A POST with non-empty shortcode and url whose
    [saveLink] succeeds gets the 200 envelope whose data is the link as
    decoded from the request body; the url stored for the shortcode is that
    url when it begins with "http://" or "https://" and "https://" followed
    by it otherwise. *)
Theorem api_post_echoes_request lf stepping now r link :
  Method r = "POST" →
  Body r = Some link →
  Shortcode link ≠ "" →
  URL link ≠ "" →
  handleAPI lf None stepping now r
  = ((saveLink lf None now (Shortcode link) (URL link)).1,
     json_Encode StatusOK
       (mkResponse true "Link saved successfully" (DataLink link)))
  ∧ getURL (handleAPI lf None stepping now r).1 None (Shortcode link)
    = (if has_scheme (URL link) then URL link else "https://" +:+ URL link,
       None).
Proof.
  intros Hm Hb Hsc Hu.
  assert (Hreply : handleAPI lf None stepping now r
    = ((saveLink lf None now (Shortcode link) (URL link)).1,
       json_Encode StatusOK
         (mkResponse true "Link saved successfully" (DataLink link)))).
  { unfold handleAPI. rewrite Hm, Hb.
    change (String.eqb "POST" "GET") with false.
    change (String.eqb "POST" "POST") with true. cbv iota.
    rewrite (nonempty_eqb _ Hsc), (nonempty_eqb _ Hu). cbn [orb].
    by rewrite saveLink_ok. }
  split; [done|]. rewrite Hreply. cbn [fst].
  erewrite getURL_found; [|apply rows_after_saveLink].
  by rewrite <- stored_url_spec.
Qed.

Lemma api_post_echoes_request_witness :
  handleAPI empty_store None None 7 (post_request "github" "github.com")
  = (mkLF [mkRow "github" "https://github.com" 7],
     json_Encode 200
       (mkResponse true "Link saved successfully"
          (DataLink (mkLink "github" "github.com")))).
Proof.
  refine (proj1 (api_post_echoes_request empty_store None 7
            (post_request "github" "github.com") (mkLink "github" "github.com")
            _ _ _ _)).
  - reflexivity.
  - reflexivity.
  - vm_compute. discriminate.
  - vm_compute. discriminate.
Defined.

(** C8 as stated fails: for a url without a scheme the envelope carries the
    url of the request, while the stored url has "https://" in front. *)
Lemma api_post_echo_not_stored :
  (handleAPI empty_store None None 7 (post_request "github" "github.com")).2
  = json_Encode 200
      (mkResponse true "Link saved successfully"
         (DataLink (mkLink "github" "github.com")))
  ∧ link_of <$> db (handleAPI empty_store None None 7
                      (post_request "github" "github.com")).1
    = [mkLink "github" "https://github.com"]
  ∧ mkLink "github" "github.com" ≠ mkLink "github" "https://github.com".
Proof. vm_compute. repeat split. discriminate. Qed.

(** C10.  [saveLink] checks nothing: with any shortcode and url it succeeds
    whenever the statement executes; with the empty shortcode it leaves
    exactly one row keyed by the empty string, holding the url as stored.
    The check for emptiness is the one in [handleAPI]: a POST whose shortcode
    is empty gets the 400 envelope and the store is not touched. *)
Theorem upsert_empty_shortcode lf now sc u fault stepping vars :
  (saveLink lf None now sc u).2 = None
  ∧ db (saveLink lf None now "" u).1
    = filter (λ r, shortcode r ≠ "") (db lf) ++ [mkRow "" (stored_url u) now]
  ∧ records (saveLink lf None now "" u).1 "" = 1%nat
  ∧ getURL (saveLink lf None now "" u).1 None "" = (stored_url u, None)
  ∧ handleAPI lf fault stepping now (mkRequest "POST" vars (Some (mkLink "" u)))
    = (lf, json_Encode StatusBadRequest
             (mkResponse false "Shortcode and URL are required" NoData)).
Proof.
  split; [done|]. split; [done|]. split; [|split].
  - unfold records. by rewrite rows_after_saveLink.
  - erewrite getURL_found; [|apply rows_after_saveLink]. done.
  - reflexivity.
Qed.

(** * Beyond the claims *)

(** ** Lookup and frames *)

(** X1.  Whatever history of [saveLink] and [deleteLink] calls, failing or
    not, builds a store from the empty table, no two of its rows share a
    shortcode. *)
Theorem history_keeps_shortcodes_unique cs :
  NoDup (shortcode <$> db (run cs empty_store)).
Proof. apply (run_unique cs empty_store). constructor. Qed.

(** X2.  [saveLink] of one shortcode, whether its statement executes or
    fails, leaves the outcome of [getURL] for every other shortcode as it
    was. *)
Theorem saveLink_keeps_other_lookups lf fault fault' now sc u sc' :
  sc' ≠ sc →
  getURL (saveLink lf fault now sc u).1 fault' sc' = getURL lf fault' sc'.
Proof.
  intros Hne. apply getURL_same_rows.
  by apply rows_of_other_after_saveLink.
Qed.

Lemma saveLink_keeps_other_lookups_witness :
  getURL (saveLink (saveLink empty_store None 1 "a" "a.org").1
            None 2 "b" "b.org").1 None "a"
  = getURL (saveLink empty_store None 1 "a" "a.org").1 None "a".
Proof.
  apply (saveLink_keeps_other_lookups
           (saveLink empty_store None 1 "a" "a.org").1 None None 2
           "b" "b.org" "a").
  discriminate.
Defined.

(** X3.  [deleteLink] of one shortcode, whether its statement executes or
    fails, leaves the outcome of [getURL] for every other shortcode as it
    was. *)
Theorem deleteLink_keeps_other_lookups lf fault fault' sc sc' :
  sc' ≠ sc →
  getURL (deleteLink lf fault sc).1 fault' sc' = getURL lf fault' sc'.
Proof.
  intros Hne. apply getURL_same_rows.
  by apply rows_of_other_after_deleteLink.
Qed.

Lemma deleteLink_keeps_other_lookups_witness :
  getURL (deleteLink (saveLink empty_store None 1 "a" "a.org").1
            None "b").1 None "a"
  = getURL (saveLink empty_store None 1 "a" "a.org").1 None "a".
Proof.
  apply (deleteLink_keeps_other_lookups
           (saveLink empty_store None 1 "a" "a.org").1 None None "b" "a").
  discriminate.
Defined.

Lemma stored_url_idem (u : string) : stored_url (stored_url u) = stored_url u.
Proof.
  rewrite (stored_url_spec (stored_url u)).
  by rewrite has_scheme_stored_url.
Qed.

(** X4.  The scheme check of [saveLink] is idempotent: saving the url that a
    lookup returned, or any url as [saveLink] would store it, gives the same
    store as saving the url it came from. *)
Theorem saveLink_of_stored_url lf fault now sc u :
  saveLink lf fault now sc (stored_url u) = saveLink lf fault now sc u
  ∧ saveLink lf fault now sc
      (getURL (saveLink lf None now sc u).1 None sc).1
    = saveLink lf fault now sc u.
Proof.
  assert (H : saveLink lf fault now sc (stored_url u)
              = saveLink lf fault now sc u).
  { destruct fault as [msg|]; [by rewrite !saveLink_fault|].
    by rewrite !saveLink_ok, stored_url_idem. }
  split; [done|].
  erewrite getURL_found; [|apply rows_after_saveLink]. done.
Qed.

(** X5.  [getURL] never hands [sql.ErrNoRows] to its caller: the error it
    returns is the driver's failure when the statement fails and the
    not-found error when the statement executes and the shortcode has no
    row, and in both cases the url it returns is empty; it returns no error
    exactly when the statement executes and the shortcode has a row. *)
Theorem getURL_error_contract lf fault sc :
  match (getURL lf fault sc).2 with
  | Some e =>
      (getURL lf fault sc).1 = ""
      ∧ e = match fault with
            | Some msg => StoreError msg
            | None => NotFoundError
            end
      ∧ (is_Some fault ∨ records lf sc = 0%nat)
  | None => fault = None ∧ (0 < records lf sc)%nat
  end.
Proof.
  destruct fault as [msg|].
  - rewrite getURL_fault. simpl. split; [done|]. split; [done|]. by left.
  - unfold records.
    destruct (filter (λ r, shortcode r = sc) (db lf)) as [|r rs] eqn:E.
    + rewrite getURL_absent by done. simpl. split; [done|]. split; [done|].
      by right.
    + rewrite (getURL_found _ _ _ _ E). simpl. split; [done|lia].
Qed.

(** ** Listing against the table *)

Lemma elem_of_getAllLinks lf link :
  link ∈ (getAllLinks lf None None).1 ↔ ∃ r, r ∈ db lf ∧ link_of r = link.
Proof.
  rewrite getAllLinks_ok. cbn [fst]. rewrite list_elem_of_fmap.
  split; intros (r & H1 & H2).
  - exists r. split; [|done].
    by rewrite <- (order_by_Permutation (db lf)).
  - exists r. split; [done|].
    by rewrite (order_by_Permutation (db lf)).
Qed.

(** X6.  [getAllLinks] returns every row of the table exactly once, as its
    shortcode and url: the result is a rearrangement of the rows' links, with
    one link per row. *)
Theorem getAllLinks_lists_every_row lf :
  (getAllLinks lf None None).2 = None
  ∧ (getAllLinks lf None None).1 ≡ₚ link_of <$> db lf
  ∧ length (getAllLinks lf None None).1 = length (db lf).
Proof.
  rewrite getAllLinks_ok. cbn [fst snd].
  assert (H : link_of <$> Sqlite.order_by_created_at_desc (db lf) ≡ₚ link_of <$> db lf).
  { by rewrite (order_by_Permutation (db lf)). }
  split; [done|]. split; [done|].
  by rewrite H, length_fmap.
Qed.

(** X7.  In a store whose shortcodes are unique, listing and lookup agree: a
    link is in the result of [getAllLinks] exactly when [getURL] of its
    shortcode succeeds with its url. *)
Theorem listing_agrees_with_lookup lf link :
  unique_shortcodes lf →
  link ∈ (getAllLinks lf None None).1
  ↔ getURL lf None (Shortcode link) = (URL link, None).
Proof.
  intros Huniq. rewrite elem_of_getAllLinks. split.
  - intros (r & Hin & <-). simpl.
    eapply getURL_found. by apply unique_row.
  - intros Hget.
    destruct (filter (λ r, shortcode r = Shortcode link) (db lf))
      as [|r rs] eqn:E.
    + rewrite getURL_absent in Hget by done. discriminate.
    + rewrite (getURL_found _ _ _ _ E) in Hget.
      assert (Hr : r ∈ filter (λ r, shortcode r = Shortcode link) (db lf))
        by (rewrite E; left).
      apply list_elem_of_filter in Hr as [Hsc Hr].
      exists r. split; [done|]. destruct link as [sc u]. simpl in *.
      unfold link_of. by simplify_eq.
Qed.

Lemma listing_agrees_with_lookup_witness :
  mkLink "b" "https://b.org"
    ∈ (getAllLinks (upserts [("a", "a.org", 1); ("b", "b.org", 2)] empty_store)
         None None).1
  ↔ getURL (upserts [("a", "a.org", 1); ("b", "b.org", 2)] empty_store)
      None "b" = ("https://b.org", None).
Proof.
  apply (listing_agrees_with_lookup
           (upserts [("a", "a.org", 1); ("b", "b.org", 2)] empty_store)
           (mkLink "b" "https://b.org")).
  apply (bool_decide_unpack _). vm_compute. exact I.
Defined.

(** X8.  The number of links that [getAllLinks] returns changes with the
    rows of the shortcode: a successful [saveLink] replaces them by one row,
    a [deleteLink] whose statement executes removes them. *)
Theorem listing_length_after_write lf now sc u :
  (length (getAllLinks (saveLink lf None now sc u).1 None None).1 + records lf sc
   = length (getAllLinks lf None None).1 + 1)%nat
  ∧ (length (getAllLinks (deleteLink lf None sc).1 None None).1 + records lf sc
     = length (getAllLinks lf None None).1)%nat.
Proof.
  assert (Hlen : ∀ lf', length (getAllLinks lf' None None).1 = length (db lf')).
  { intros lf'. rewrite getAllLinks_ok. cbn [fst].
    by rewrite length_fmap, (order_by_Permutation (db lf')). }
  assert (Hsplit : (length (filter (λ r, shortcode r ≠ sc) (db lf))
                    + records lf sc = length (db lf))%nat).
  { unfold records.
    rewrite <- (filter_app_complement (λ r, shortcode r = sc) (db lf)) at 3.
    rewrite length_app. lia. }
  rewrite !Hlen, deleteLink_db, saveLink_ok. cbn [fst db].
  rewrite length_app. simpl. lia.
Qed.

Lemma newest_row_first (t : list Row) (new : Row) :
  Forall (λ r, created_at r < created_at new) t →
  head (Sqlite.order_by_created_at_desc (t ++ [new])) = Some new.
Proof.
  intros Holder.
  pose proof (order_by_Permutation (t ++ [new])) as Hperm.
  pose proof (order_by_sorted (t ++ [new])) as Hsorted.
  destruct (Sqlite.order_by_created_at_desc (t ++ [new])) as [|h tl].
  - apply Permutation_nil_l in Hperm. by destruct t.
  - simpl. f_equal. destruct (decide (h = new)) as [|Hne]; [done|].
    exfalso. apply StronglySorted_inv in Hsorted as [_ Hh].
    assert (Hnew : new ∈ h :: tl).
    { rewrite Hperm. apply elem_of_app. right. left. }
    assert (Hold : h ∈ t).
    { assert (Hin : h ∈ t ++ [new]) by (rewrite <- Hperm; left).
      apply elem_of_app in Hin as [Hin|Hin]; [done|].
      by apply list_elem_of_singleton in Hin. }
    apply elem_of_cons in Hnew as [Heq|Hnew]; [by subst|].
    rewrite Forall_forall in Hh, Holder.
    specialize (Hh _ Hnew). specialize (Holder _ Hold).
    unfold newest_first in Hh. lia.
Qed.

(** X9.  A successful [saveLink] at a clock later than the [created_at] of
    every row puts its link first in the result of [getAllLinks], also when
    it overwrites a row that was listed further down. *)
Theorem saved_link_listed_first lf now sc u :
  Forall (λ r, created_at r < now) (db lf) →
  head (getAllLinks (saveLink lf None now sc u).1 None None).1
  = Some (mkLink sc (stored_url u)).
Proof.
  intros Holder. rewrite getAllLinks_ok, saveLink_ok. cbn [fst db].
  assert (Hhead : head (Sqlite.order_by_created_at_desc
                          (filter (λ r, shortcode r ≠ sc) (db lf)
                           ++ [mkRow sc (stored_url u) now]))
                  = Some (mkRow sc (stored_url u) now)).
  { apply newest_row_first. by apply Forall_filter. }
  destruct (Sqlite.order_by_created_at_desc _) as [|h tl]; [done|].
  simpl in Hhead |- *. by simplify_eq.
Qed.

Lemma saved_link_listed_first_witness :
  head (getAllLinks
          (saveLink (upserts [("a", "a.org", 1); ("b", "b.org", 2)] empty_store)
             None 3 "a" "a.net").1 None None).1
  = Some (mkLink "a" "https://a.net").
Proof.
  apply (saved_link_listed_first
           (upserts [("a", "a.org", 1); ("b", "b.org", 2)] empty_store)
           3 "a" "a.net").
  apply (bool_decide_unpack _). vm_compute. exact I.
Defined.

(** X10.  Deleting twice: once a [deleteLink] statement has executed for a
    shortcode, whether it found a row or not, the next [deleteLink] of that
    shortcode reports the not-found error and changes nothing. *)
Theorem delete_twice lf sc :
  deleteLink (deleteLink lf None sc).1 None sc
  = ((deleteLink lf None sc).1, Some NotFoundError).
Proof.
  apply deleteLink_absent. rewrite deleteLink_db. apply same_of_others.
Qed.

(** X11.  Saving a link and then deleting it: the [deleteLink] succeeds and
    the table is the old one without the rows of that shortcode, so a
    [saveLink] of a shortcode that had no row is undone exactly. *)
Theorem delete_after_save lf now sc u :
  deleteLink (saveLink lf None now sc u).1 None sc
  = (mkLF (filter (λ r, shortcode r ≠ sc) (db lf)), None)
  ∧ match records lf sc with
    | O => (deleteLink (saveLink lf None now sc u).1 None sc).1 = lf
    | S _ => (deleteLink (saveLink lf None now sc u).1 None sc).1
             = (deleteLink lf None sc).1
    end.
Proof.
  assert (H : deleteLink (saveLink lf None now sc u).1 None sc
              = (mkLF (filter (λ r, shortcode r ≠ sc) (db lf)), None)).
  { erewrite deleteLink_present; [|apply rows_after_saveLink].
    rewrite saveLink_ok. cbn [fst db]. rewrite filter_app, others_of_others.
    rewrite filter_cons_False by (simpl; tauto). by rewrite app_nil_r. }
  split; [done|]. rewrite H. cbn [fst]. unfold records.
  destruct (filter (λ r, shortcode r = sc) (db lf)) as [|r rs] eqn:E; simpl.
  - rewrite others_when_absent by done. by destruct lf.
  - by rewrite (deleteLink_present _ _ _ _ E).
Qed.

(** ** The management API, branch by branch *)

Lemma saveLink_error_keeps lf fault now sc u err :
  (saveLink lf fault now sc u).2 = Some err →
  (saveLink lf fault now sc u).1 = lf.
Proof.
  destruct fault as [msg|]; [by rewrite saveLink_fault|].
  by rewrite saveLink_ok.
Qed.

(** X12.  [handleAPI] always answers with a JSON envelope whose status is
    200, 400, 404, 405 or 500; the envelope says success exactly when the
    status is 200, and with every other status the store is left as it
    was. *)
Theorem api_changes_store_only_with_200 lf fault stepping now r :
  ∃ code body,
    (handleAPI lf fault stepping now r).2 = json_Encode code body
    ∧ code ∈ [200; 400; 404; 405; 500]
    ∧ Success body = bool_decide (code = 200)
    ∧ (code = 200 ∨ (handleAPI lf fault stepping now r).1 = lf).
Proof.
  unfold handleAPI.
  destruct (String.eqb (Method r) "GET").
  { destruct (getAllLinks lf fault stepping) as [links [e|]];
      eexists _, _; (split; [reflexivity|]); cbn;
      (split; [set_solver|]); (split; [done|]); by right. }
  destruct (String.eqb (Method r) "POST").
  { destruct (Body r) as [link|].
    2:{ eexists _, _; (split; [reflexivity|]); cbn.
        split; [set_solver|]. split; [done|]. by right. }
    destruct (String.eqb (Shortcode link) "" || String.eqb (URL link) "").
    { eexists _, _; (split; [reflexivity|]); cbn.
      split; [set_solver|]. split; [done|]. by right. }
    pose proof (saveLink_error_keeps lf fault now (Shortcode link) (URL link))
      as Hkeep.
    destruct (saveLink lf fault now (Shortcode link) (URL link)) as [lf' [e|]];
      eexists _, _; (split; [reflexivity|]); cbn;
      (split; [set_solver|]); (split; [done|]).
    - right. by apply (Hkeep e).
    - by left. }
  destruct (String.eqb (Method r) "DELETE").
  2:{ eexists _, _; (split; [reflexivity|]); cbn.
      split; [set_solver|]. split; [done|]. by right. }
  destruct (String.eqb (var r "shortcode") "").
  { eexists _, _; (split; [reflexivity|]); cbn.
    split; [set_solver|]. split; [done|]. by right. }
  pose proof (deleteLink_error_keeps lf fault (var r "shortcode")) as Hkeep.
  destruct (deleteLink lf fault (var r "shortcode")) as [lf' [e|]];
    eexists _, _; (split; [reflexivity|]); cbn;
    (split; [set_solver|]); (split; [done|]).
  - right. by apply (Hkeep e).
  - by left.
Qed.

(** X13.  A POST whose body does not decode, or decodes to a link with an
    empty shortcode or an empty url, gets a 400 envelope, and the store is
    neither read nor written, whatever the state of the engine. *)
Theorem api_post_rejected lf fault stepping now r :
  Method r = "POST" →
  (∀ link, Body r = Some link → Shortcode link = "" ∨ URL link = "") →
  handleAPI lf fault stepping now r
  = (lf, json_Encode StatusBadRequest
           (mkResponse false
              (match Body r with
               | Some _ => "Shortcode and URL are required"
               | None => "Invalid JSON"
               end) NoData)).
Proof.
  intros Hm Hbody. unfold handleAPI. rewrite Hm.
  change (String.eqb "POST" "GET") with false.
  change (String.eqb "POST" "POST") with true. cbv iota.
  destruct (Body r) as [link|]; [|done].
  destruct (Hbody link eq_refl) as [-> | ->]; [done|].
  by rewrite orb_true_r.
Qed.

Lemma api_post_rejected_witness :
  handleAPI empty_store None None 7 (post_request "a" "")
  = (empty_store,
     json_Encode 400
       (mkResponse false "Shortcode and URL are required" NoData)).
Proof.
  apply (api_post_rejected empty_store None None 7 (post_request "a" "")).
  - reflexivity.
  - intros link [= <-]. by right.
Defined.

(** X14.  When the call that runs the statement fails, [db.Query] for a
    GET and [db.Exec] for a valid POST, the request gets the 500 envelope
    with a fixed message: the driver's text is not passed on, and the store
    is left as it was. *)
Theorem api_store_failure lf msg stepping now r link :
  Method r = "GET"
  ∨ (Method r = "POST" ∧ Body r = Some link
     ∧ Shortcode link ≠ "" ∧ URL link ≠ "") →
  handleAPI lf (Some msg) stepping now r
  = (lf, json_Encode StatusInternalServerError
           (mkResponse false
              (if String.eqb (Method r) "GET" then "Failed to retrieve links"
               else "Failed to save link") NoData)).
Proof.
  intros [Hm | (Hm & Hb & Hsc & Hu)]; unfold handleAPI; rewrite Hm.
  - done.
  - change (String.eqb "POST" "GET") with false.
    change (String.eqb "POST" "POST") with true. cbv iota.
    rewrite Hb, (nonempty_eqb _ Hsc), (nonempty_eqb _ Hu). cbn [orb].
    by rewrite saveLink_fault.
Qed.

Lemma api_store_failure_witness :
  handleAPI empty_store (Some "database is locked") None 7 (post_request "a" "a.org")
  = (empty_store,
     json_Encode 500 (mkResponse false "Failed to save link" NoData)).
Proof.
  apply (api_store_failure empty_store "database is locked" None 7
           (post_request "a" "a.org") (mkLink "a" "a.org")).
  right. repeat split; discriminate.
Defined.

(** ** Handlers composed *)

(** X15.  Round trip through the two handlers: after a POST with non-empty
    shortcode and url that the store accepted, a forward request for that
    shortcode is redirected, in both servers, with status 302 to the url as
    stored: the url of the request when it begins with a scheme, "https://"
    followed by it otherwise. *)
Theorem post_then_forward lf stepping now r link q :
  Method r = "POST" →
  Body r = Some link →
  Shortcode link ≠ "" →
  URL link ≠ "" →
  var q "shortcode" = Shortcode link →
  CmdServer.handleForward (handleAPI lf None stepping now r).1 None q
  = http_Redirect (if has_scheme (URL link) then URL link
                   else "https://" +:+ URL link) StatusFound
  ∧ RootServer.handleForward (handleAPI lf None stepping now r).1 None q
    = http_Redirect (if has_scheme (URL link) then URL link
                     else "https://" +:+ URL link) StatusFound.
Proof.
  intros Hm Hb Hsc Hu Hq.
  assert (Hstore : (handleAPI lf None stepping now r).1
                   = (saveLink lf None now (Shortcode link) (URL link)).1).
  { unfold handleAPI. rewrite Hm, Hb.
    change (String.eqb "POST" "GET") with false.
    change (String.eqb "POST" "POST") with true. cbv iota.
    rewrite (nonempty_eqb _ Hsc), (nonempty_eqb _ Hu). cbn [orb].
    by rewrite saveLink_ok. }
  assert (Hget : getURL (handleAPI lf None stepping now r).1 None (var q "shortcode")
                 = (stored_url (URL link), None)).
  { rewrite Hstore, Hq.
    erewrite getURL_found; [|apply rows_after_saveLink]. done. }
  unfold CmdServer.handleForward, RootServer.handleForward.
  rewrite Hget, Hq, (nonempty_eqb _ Hsc), <- stored_url_spec. done.
Qed.

Lemma post_then_forward_witness :
  CmdServer.handleForward
    (handleAPI empty_store None None 7 (post_request "gh" "github.com")).1 None
    (forward_request "gh")
  = http_Redirect "https://github.com" 302
  ∧ RootServer.handleForward
      (handleAPI empty_store None None 7 (post_request "gh" "github.com")).1 None
      (forward_request "gh")
    = http_Redirect "https://github.com" 302.
Proof.
  apply (post_then_forward empty_store None 7 (post_request "gh" "github.com")
           (mkLink "gh" "github.com") (forward_request "gh")).
  - reflexivity.
  - reflexivity.
  - simpl. discriminate.
  - simpl. discriminate.
  - vm_compute. reflexivity.
Defined.

(** X16.  After a DELETE request with a non-empty shortcode whose statement
    executed, whether it answered 200 or 404, a forward request for that
    shortcode gets the answer for an unknown shortcode: the redirect to the
    management page in [cmd/server], the plain 404 in the root-level
    server. *)
Theorem delete_then_forward lf stepping now r q :
  Method r = "DELETE" →
  var r "shortcode" ≠ "" →
  var q "shortcode" = var r "shortcode" →
  CmdServer.handleForward (handleAPI lf None stepping now r).1 None q
  = http_Redirect
      ("/?shortcode=" +:+ var r "shortcode" +:+ "&error=not_found") StatusFound
  ∧ RootServer.handleForward (handleAPI lf None stepping now r).1 None q
    = http_Error "Link not found" StatusNotFound.
Proof.
  intros Hm Hne Hq.
  assert (Hstore : (handleAPI lf None stepping now r).1
                   = (deleteLink lf None (var r "shortcode")).1).
  { unfold handleAPI. rewrite Hm.
    change (String.eqb "DELETE" "GET") with false.
    change (String.eqb "DELETE" "POST") with false.
    change (String.eqb "DELETE" "DELETE") with true. cbv iota.
    rewrite (nonempty_eqb _ Hne).
    by destruct (deleteLink lf None (var r "shortcode")) as [lf' [e|]]. }
  assert (Hget : getURL (handleAPI lf None stepping now r).1 None (var q "shortcode")
                 = ("", Some NotFoundError)).
  { rewrite Hstore, Hq. apply getURL_absent.
    rewrite deleteLink_db. apply same_of_others. }
  unfold CmdServer.handleForward, RootServer.handleForward.
  rewrite Hget, Hq, (nonempty_eqb _ Hne). done.
Qed.

Lemma delete_then_forward_witness :
  CmdServer.handleForward
    (handleAPI (upserts [("gh", "github.com", 1)] empty_store) None None 7
       (delete_request "gh")).1 None (forward_request "gh")
  = http_Redirect "/?shortcode=gh&error=not_found" 302
  ∧ RootServer.handleForward
      (handleAPI (upserts [("gh", "github.com", 1)] empty_store) None None 7
         (delete_request "gh")).1 None (forward_request "gh")
    = http_Error "Link not found" 404.
Proof.
  apply (delete_then_forward (upserts [("gh", "github.com", 1)] empty_store) None 7
           (delete_request "gh") (forward_request "gh")).
  - reflexivity.
  - vm_compute. discriminate.
  - vm_compute. reflexivity.
Defined.

(** X17.  The status that [handleForward] of [cmd/server] writes depends only
    on the shortcode of the route: 400 when it is empty or missing, 302
    otherwise, whatever the store holds and whether or not the lookup fails;
    the root-level server answers 400 in the same case and 302 or 404
    otherwise.  Neither ever answers with a 5xx status. *)
Theorem forward_status lf fault r :
  status (CmdServer.handleForward lf fault r)
  = (if String.eqb (var r "shortcode") "" then 400 else 302)
  ∧ status (RootServer.handleForward lf fault r)
    = (if String.eqb (var r "shortcode") "" then 400
       else match (getURL lf fault (var r "shortcode")).2 with
            | Some _ => 404
            | None => 302
            end).
Proof.
  unfold CmdServer.handleForward, RootServer.handleForward.
  destruct (String.eqb (var r "shortcode") ""); [done|].
  by destruct (getURL lf fault (var r "shortcode")) as [u [e|]].
Qed.

(** ** What the API keeps and what [main] resets *)

(** X18.  No request to [handleAPI] breaks the store: if the shortcodes are
    unique, every url begins with a scheme and no row is keyed by the empty
    shortcode, the same holds of the store after the request, whatever the
    request and the state of the engine. *)
Theorem api_keeps_store_well_formed lf fault stepping now r :
  unique_shortcodes lf ∧ normalized lf ∧ no_empty_shortcode lf →
  unique_shortcodes (handleAPI lf fault stepping now r).1
  ∧ normalized (handleAPI lf fault stepping now r).1
  ∧ no_empty_shortcode (handleAPI lf fault stepping now r).1.
Proof.
  intros (Hu & Hn & He).
  destruct (handleAPI_store lf fault stepping now r)
    as [-> | [(link & Hsc & _ & ->) | (sc & ->)]].
  - done.
  - split; [by apply step_unique|]. split; [by apply step_normalized|].
    by apply step_no_empty.
  - split; [by apply step_unique|]. split; [by apply step_normalized|].
    by apply step_no_empty.
Qed.

Lemma api_keeps_store_well_formed_witness :
  unique_shortcodes
    (handleAPI empty_store None None 7 (post_request "gh" "github.com")).1
  ∧ normalized
      (handleAPI empty_store None None 7 (post_request "gh" "github.com")).1
  ∧ no_empty_shortcode
      (handleAPI empty_store None None 7 (post_request "gh" "github.com")).1.
Proof.
  apply (api_keeps_store_well_formed empty_store None None 7
           (post_request "gh" "github.com")).
  split; [|split].
  - constructor.
  - constructor.
  - reflexivity.
Defined.

(** X19.  After the seeding of [main] with a working engine, the lookups of
    "google" and "github" return the two default urls, whatever the store
    held for them before, and the lookup of every other shortcode is as it
    was. *)
Theorem main_seed_resets_defaults lf now1 now2 sc :
  getURL (main_seed lf None None now1 now2) None sc
  = if decide (sc = "github") then ("https://github.com", None)
    else if decide (sc = "google") then ("https://www.google.com", None)
    else getURL lf None sc.
Proof.
  unfold main_seed. cbv zeta.
  destruct (decide (sc = "github")) as [->|Hgh].
  - erewrite getURL_found; [|apply rows_after_saveLink]. reflexivity.
  - rewrite (getURL_same_rows _ _ None sc
               (rows_of_other_after_saveLink _ None now2 "github" _ sc Hgh)).
    destruct (decide (sc = "google")) as [->|Hgo].
    + erewrite getURL_found; [|apply rows_after_saveLink]. reflexivity.
    + apply getURL_same_rows. by apply rows_of_other_after_saveLink.
Qed.

(** ** The command-line client *)

Lemma Split_length (s : string) (sep : ascii) :
  length (Cli.Split s sep) = S (Cli.Count s sep).
Proof.
  induction s as [|c s IH]; [done|]. cbn [Cli.Split Cli.Count].
  destruct (Ascii.eqb c sep); cbn [length]; [by rewrite IH|].
  by destruct (Cli.Split s sep).
Qed.

Lemma Split_no_sep (s : string) (sep : ascii) :
  Cli.Count s sep = 0%nat → Cli.Split s sep = [s].
Proof.
  induction s as [|c s IH]; [done|]. cbn [Cli.Split Cli.Count].
  destruct (Ascii.eqb c sep); [done|]. intros H. by rewrite IH.
Qed.

Lemma Split_at_sep (s1 s2 : string) (sep : ascii) :
  Cli.Count s1 sep = 0%nat →
  Cli.Split (s1 +:+ String sep s2) sep = s1 :: Cli.Split s2 sep.
Proof.
  induction s1 as [|c s1 IH].
  - intros _. change ("" +:+ String sep s2) with (String sep s2).
    cbn [Cli.Split]. by rewrite Ascii.eqb_refl.
  - change (String c s1 +:+ String sep s2)
      with (String c (s1 +:+ String sep s2)).
    cbn [Cli.Split Cli.Count].
    destruct (Ascii.eqb c sep); [done|]. intros H. by rewrite IH.
Qed.

(** X20.  [handleAdd] of the client accepts only an argument with exactly
    one comma: with none, or with more than one (a url that contains a comma,
    for one), it prints the format error, whatever the server would
    answer. *)
Theorem cli_add_needs_one_comma TrimSpace Post serverURL addArg :
  Cli.Count addArg "," ≠ 1%nat →
  Cli.handleAdd TrimSpace Post serverURL addArg
  = Cli.Stdout ("Error: Invalid format. Use: shortcode,url" +:+ Cli.newline).
Proof.
  intros Hn. unfold Cli.handleAdd. rewrite Split_length.
  destruct (S (Cli.Count addArg ",") =? 2)%nat eqn:E; [|done].
  apply Nat.eqb_eq in E. lia.
Qed.

Lemma cli_add_needs_one_comma_witness :
  Cli.handleAdd (λ s, s)
    (λ _ _, Cli.Decoded (Cli.mkCLIResponse true "Link saved successfully" Cli.Nil))
    "http://localhost:8080" "maps,https://maps.example.org/?ll=1,2"
  = Cli.Stdout ("Error: Invalid format. Use: shortcode,url" +:+ Cli.newline).
Proof.
  apply (cli_add_needs_one_comma (λ s, s)
    (λ _ _, Cli.Decoded (Cli.mkCLIResponse true "Link saved successfully" Cli.Nil))
    "http://localhost:8080" "maps,https://maps.example.org/?ll=1,2").
  vm_compute. discriminate.
Defined.

(** X21.  For an argument [sc,u] with no other comma whose two parts are not
    empty once trimmed, [handleAdd] posts the trimmed shortcode and url to
    [/api/links] under the server's address, and on a successful answer it
    reports the url as typed. *)
Theorem cli_add_posts_trimmed_parts TrimSpace Post serverURL sc u :
  Cli.Count sc "," = 0%nat →
  Cli.Count u "," = 0%nat →
  TrimSpace sc ≠ "" →
  TrimSpace u ≠ "" →
  Cli.handleAdd TrimSpace Post serverURL (sc +:+ "," +:+ u)
  = match Post (serverURL +:+ "/api/links")
            {[ "shortcode" := TrimSpace sc; "url" := TrimSpace u ]} with
    | Cli.ConnectError err =>
        Cli.Stdout ("Error: Failed to connect to server: " +:+ err
                    +:+ Cli.newline)
    | Cli.DecodeError err =>
        Cli.Stdout ("Error: Failed to decode response: " +:+ err
                    +:+ Cli.newline)
    | Cli.Decoded response =>
        if Cli.Success response then
          Cli.Stdout ("✓ Link added: " +:+ TrimSpace sc +:+ " -> "
                      +:+ TrimSpace u +:+ Cli.newline)
        else Cli.Stdout ("Error: " +:+ Cli.Message response +:+ Cli.newline)
    end.
Proof.
  intros Hsc Hu Hsc' Hu'. unfold Cli.handleAdd.
  change ("," +:+ u) with (String "," u).
  rewrite (Split_at_sep sc u "," Hsc), (Split_no_sep u "," Hu).
  cbn [length Nat.eqb negb nth].
  by rewrite (nonempty_eqb _ Hsc'), (nonempty_eqb _ Hu').
Qed.

Lemma cli_add_posts_trimmed_parts_witness :
  Cli.handleAdd (λ s, s)
    (λ _ payload,
       Cli.Decoded (Cli.mkCLIResponse true (default "" (payload !! "url")) Cli.Nil))
    "http://localhost:8080" "gh,github.com"
  = Cli.Stdout ("✓ Link added: gh -> github.com" +:+ Cli.newline).
Proof.
  apply (cli_add_posts_trimmed_parts (λ s, s)
    (λ _ payload,
       Cli.Decoded (Cli.mkCLIResponse true (default "" (payload !! "url")) Cli.Nil))
    "http://localhost:8080" "gh" "github.com").
  - reflexivity.
  - reflexivity.
  - discriminate.
  - discriminate.
Defined.

(** X22.  [handleAdd] never posts an empty shortcode or an empty url: two
    servers that answer alike to every payload with both fields non-empty,
    sent to [/api/links], get the same output from it. *)
Theorem cli_add_never_posts_empty TrimSpace Post Post' serverURL addArg :
  (∀ sc u, sc ≠ "" → u ≠ "" →
     Post (serverURL +:+ "/api/links") {[ "shortcode" := sc; "url" := u ]}
     = Post' (serverURL +:+ "/api/links") {[ "shortcode" := sc; "url" := u ]}) →
  Cli.handleAdd TrimSpace Post serverURL addArg
  = Cli.handleAdd TrimSpace Post' serverURL addArg.
Proof.
  intros Hagree. unfold Cli.handleAdd.
  destruct (negb (length (Cli.Split addArg ",") =? 2)%nat); [done|].
  destruct (String.eqb (TrimSpace (nth 0 (Cli.Split addArg ",") "")) "")
    eqn:E1; [done|].
  destruct (String.eqb (TrimSpace (nth 1 (Cli.Split addArg ",") "")) "")
    eqn:E2; [done|].
  cbn [orb]. apply String.eqb_neq in E1, E2. by rewrite Hagree.
Qed.

Lemma cli_add_never_posts_empty_witness :
  Cli.handleAdd (λ s, s) (λ _ _, Cli.ConnectError "connection refused")
    "http://localhost:8080" ",github.com"
  = Cli.handleAdd (λ s, s)
      (λ _ payload,
         if decide (payload !! "shortcode" = Some "")
         then Cli.DecodeError "EOF"
         else Cli.ConnectError "connection refused")
      "http://localhost:8080" ",github.com".
Proof.
  apply (cli_add_never_posts_empty (λ s, s)
    (λ _ _, Cli.ConnectError "connection refused")
    (λ _ payload,
       if decide (payload !! "shortcode" = Some "")
       then Cli.DecodeError "EOF"
       else Cli.ConnectError "connection refused")
    "http://localhost:8080" ",github.com").
  intros sc u Hsc Hu. rewrite lookup_insert_eq.
  rewrite decide_False; [done|]. congruence.
Defined.

Lemma append_assoc (s1 s2 s3 : string) :
  (s1 +:+ s2) +:+ s3 = s1 +:+ (s2 +:+ s3).
Proof.
  induction s1 as [|c s1 IH]; [done|].
  change (String c (s1 +:+ s2) +:+ s3 = String c (s1 +:+ (s2 +:+ s3))).
  change (String c ((s1 +:+ s2) +:+ s3) = String c (s1 +:+ (s2 +:+ s3))).
  by rewrite IH.
Qed.

Lemma append_empty_r (s : string) : s +:+ "" = s.
Proof.
  induction s as [|c s IH]; [done|].
  change (String c (s +:+ "") = String c s). by rewrite IH.
Qed.

Lemma getString_link_object (link : string * string) :
  ∃ m, Cli.link_object link = Cli.Map m
       ∧ Cli.getString m "shortcode" = link.1
       ∧ Cli.getString m "url" = link.2.
Proof.
  eexists. split; [reflexivity|]. unfold Cli.getString. split.
  - by rewrite lookup_insert_eq.
  - rewrite lookup_insert_ne by done. by rewrite lookup_singleton_eq.
Qed.

Lemma list_rows_of_links (links : list (string * string)) (w : string) :
  foldl
    (λ w item,
       match item with
       | Cli.Map link =>
           w +:+ Cli.getString link "shortcode" +:+ Cli.tab
             +:+ Cli.getString link "url" +:+ Cli.newline
       | _ => w
       end) w (Cli.link_object <$> links)
  = w +:+ foldr (λ link rest, Cli.table_row link +:+ rest) "" links.
Proof.
  revert w. induction links as [|link links IH]; intros w.
  - simpl. by rewrite append_empty_r.
  - rewrite fmap_cons. cbn [foldl foldr].
    destruct (getString_link_object link) as (m & -> & -> & ->).
    rewrite IH. unfold Cli.table_row. by rewrite append_assoc.
Qed.

(** X23.  [handleList] on a successful answer whose data is the array of
    the server's links, each an object with string fields [shortcode] and
    [url]: for an empty array it prints "No links found"; otherwise it writes
    the two header lines and then one line per link, in the order of the
    array, shortcode and url separated by a tab. *)
Theorem cli_list_prints_links Get serverURL msg links :
  Get (serverURL +:+ "/api/links")
  = Cli.Decoded (Cli.mkCLIResponse true msg
                   (Cli.Slice (Cli.link_object <$> links))) →
  Cli.handleList Get serverURL
  = match links with
    | [] => Cli.Stdout ("No links found" +:+ Cli.newline)
    | _ :: _ => Cli.Tabwriter (Cli.table_text links)
    end.
Proof.
  intros Hget. unfold Cli.handleList. rewrite Hget. cbn [Cli.Success negb Cli.Data].
  destruct links as [|link links]; [done|].
  change (Cli.link_object <$> link :: links)
    with (Cli.link_object link :: (Cli.link_object <$> links)).
  cbv iota beta. f_equal.
  apply (list_rows_of_links (link :: links)).
Qed.

Lemma cli_list_prints_links_witness :
  Cli.handleList
    (λ _, Cli.Decoded (Cli.mkCLIResponse true "Links retrieved successfully"
            (Cli.Slice (Cli.link_object <$>
               [("gh", "https://github.com"); ("g", "https://www.google.com")]))))
    "http://localhost:8080"
  = Cli.Tabwriter
      ("SHORTCODE" +:+ Cli.tab +:+ "URL" +:+ Cli.newline
       +:+ "---------" +:+ Cli.tab +:+ "---" +:+ Cli.newline
       +:+ "gh" +:+ Cli.tab +:+ "https://github.com" +:+ Cli.newline
       +:+ "g" +:+ Cli.tab +:+ "https://www.google.com" +:+ Cli.newline).
Proof.
  apply (cli_list_prints_links
    (λ _, Cli.Decoded (Cli.mkCLIResponse true "Links retrieved successfully"
            (Cli.Slice (Cli.link_object <$>
               [("gh", "https://github.com"); ("g", "https://www.google.com")]))))
    "http://localhost:8080" "Links retrieved successfully"
    [("gh", "https://github.com"); ("g", "https://www.google.com")]).
  reflexivity.
Defined.

(** X24.  [handleList] skips what is not an object: extending a non-empty
    array of the answer by an item that is no object leaves the output as it
    is. *)
Theorem cli_list_skips_non_objects Get Get' serverURL msg item items extra :
  (∀ m, extra ≠ Cli.Map m) →
  Get (serverURL +:+ "/api/links")
  = Cli.Decoded (Cli.mkCLIResponse true msg (Cli.Slice (item :: items))) →
  Get' (serverURL +:+ "/api/links")
  = Cli.Decoded (Cli.mkCLIResponse true msg
                   (Cli.Slice (item :: items ++ [extra]))) →
  Cli.handleList Get' serverURL = Cli.handleList Get serverURL.
Proof.
  intros Hextra Hget Hget'. unfold Cli.handleList. rewrite Hget, Hget'.
  cbn [Cli.Success negb Cli.Data]. f_equal.
  rewrite app_comm_cons, foldl_app. cbn [foldl].
  destruct extra; try done. by destruct (Hextra m).
Qed.

Lemma cli_list_skips_non_objects_witness :
  Cli.handleList
    (λ _, Cli.Decoded (Cli.mkCLIResponse true "ok"
            (Cli.Slice [Cli.link_object ("gh", "https://github.com");
                        Cli.Str "stray"])))
    "http://localhost:8080"
  = Cli.handleList
      (λ _, Cli.Decoded (Cli.mkCLIResponse true "ok"
              (Cli.Slice [Cli.link_object ("gh", "https://github.com")])))
      "http://localhost:8080".
Proof.
  apply (cli_list_skips_non_objects
    (λ _, Cli.Decoded (Cli.mkCLIResponse true "ok"
            (Cli.Slice [Cli.link_object ("gh", "https://github.com")])))
    (λ _, Cli.Decoded (Cli.mkCLIResponse true "ok"
            (Cli.Slice [Cli.link_object ("gh", "https://github.com");
                        Cli.Str "stray"])))
    "http://localhost:8080" "ok"
    (Cli.link_object ("gh", "https://github.com")) [] (Cli.Str "stray")).
  - intros m. discriminate.
  - reflexivity.
  - reflexivity.
Defined.

(** ** The store as a finite map *)

Lemma link_map_lookup lf sc :
  link_map lf !! sc = url <$> head (filter (λ r, shortcode r = sc) (db lf)).
Proof.
  unfold link_map. destruct lf as [t]. cbn [db].
  induction t as [|r t IH]; [done|].
  rewrite fmap_cons, list_to_map_cons, filter_cons. cbn [fst snd].
  destruct (decide (shortcode r = sc)) as [<-|Hne].
  - by rewrite lookup_insert_eq.
  - by rewrite lookup_insert_ne.
Qed.

(** X25.  The repository behaves as a finite map from shortcode to url:
    [getURL] is the lookup, a successful [saveLink] is the insertion of the
    url as stored, and a [deleteLink] whose statement executes is the
    removal of the key. *)
Theorem repository_is_a_map lf now sc u :
  getURL lf None sc
  = match link_map lf !! sc with
    | Some v => (v, None)
    | None => ("", Some NotFoundError)
    end
  ∧ link_map (saveLink lf None now sc u).1
    = <[sc := if has_scheme u then u else "https://" +:+ u]> (link_map lf)
  ∧ link_map (deleteLink lf None sc).1 = delete sc (link_map lf).
Proof.
  split; [|split].
  - rewrite link_map_lookup.
    destruct (filter (λ r, shortcode r = sc) (db lf)) as [|r rs] eqn:E.
    + by rewrite getURL_absent.
    + by rewrite (getURL_found _ _ _ _ E).
  - apply map_eq. intros sc'. rewrite <- stored_url_spec.
    destruct (decide (sc = sc')) as [<-|Hne].
    + rewrite lookup_insert_eq, link_map_lookup.
      by rewrite rows_after_saveLink.
    + rewrite lookup_insert_ne by done. rewrite !link_map_lookup.
      by rewrite rows_of_other_after_saveLink.
  - apply map_eq. intros sc'.
    destruct (decide (sc = sc')) as [<-|Hne].
    + rewrite lookup_delete_eq, link_map_lookup, deleteLink_db.
      by rewrite same_of_others.
    + rewrite lookup_delete_ne by done. rewrite !link_map_lookup.
      by rewrite rows_of_other_after_deleteLink.
Qed.

(** ** A cursor that fails on the way *)

(** X26.  A failure of the cursor while [getAllLinks] steps through the
    rows is not reported: [getAllLinks] returns the links read before it,
    with no error, and a GET to [handleAPI] answers 200 and success with
    those links. *)
Theorem listing_hides_stepping_failure lf k now r :
  Method r = "GET" →
  getAllLinks lf None (Some k) = (take k (getAllLinks lf None None).1, None)
  ∧ handleAPI lf None (Some k) now r
    = (lf, json_Encode StatusOK
             (mkResponse true "Links retrieved successfully"
                (DataLinks (take k (getAllLinks lf None None).1)))).
Proof.
  intros Hm.
  assert (H : getAllLinks lf None (Some k)
              = (take k (getAllLinks lf None None).1, None)).
  { rewrite getAllLinks_ok. cbn [fst].
    unfold getAllLinks, Sqlite.select_all.
    by rewrite (foldl_snoc_fmap link_of), fmap_take. }
  split; [done|]. unfold handleAPI. rewrite Hm.
  change (String.eqb "GET" "GET") with true. cbv iota. by rewrite H.
Qed.

Lemma listing_hides_stepping_failure_witness :
  handleAPI (upserts [("a", "a.org", 1); ("b", "b.org", 2)] empty_store)
    None (Some 1%nat) 7 (mkRequest "GET" ∅ None)
  = (upserts [("a", "a.org", 1); ("b", "b.org", 2)] empty_store,
     json_Encode 200
       (mkResponse true "Links retrieved successfully"
          (DataLinks [mkLink "b" "https://b.org"]))).
Proof.
  refine (proj2 (listing_hides_stepping_failure
    (upserts [("a", "a.org", 1); ("b", "b.org", 2)] empty_store)
    1%nat 7 (mkRequest "GET" ∅ None) _)).
  reflexivity.
Defined.
